(** * Compute Engine demo suite: resource model, project client and
      App Engine helper

    A shallow embedding of [demo-suite/lib/google_cloud/gce.py] and
    [demo-suite/lib/google_cloud/gce_appengine.py], and the properties of
    the specification checked against it.

    Python values are the JSON fragment ([pyval]); dictionaries keep their
    entries in insertion order and are keyed by strings.  Attributes that an
    object may lack are [option]s ([None] is "no such attribute").  Methods
    that mutate [self] are state transformers over the object, methods that
    talk to the provider are state transformers over a chronological trace
    of effects; both may raise. *)

From Stdlib Require Import String Ascii List ZArith Bool Lia DecimalString.
Import ListNotations.
Open Scope string_scope.

(** ** Python values *)

#[warnings="-register-all"]
Inductive pyval : Type :=
| PNone
| PBool (b : bool)
| PInt (z : Z)
| PStr (s : string)
| PList (l : list pyval)
| PDict (d : list (string * pyval)).

Definition pydict : Type := list (string * pyval).

(** [bool(v)]: what [if v:] and [not v] test. *)
Definition truthy (v : pyval) : bool :=
  match v with
  | PNone => false
  | PBool b => b
  | PInt z => negb (Z.eqb z 0)
  | PStr s => negb (String.eqb s "")
  | PList l => match l with [] => false | _ :: _ => true end
  | PDict d => match d with [] => false | _ :: _ => true end
  end.

(** ** Exceptions *)

Inductive exn : Type :=
| KeyError (key : string)
| AttributeError (attribute : string)
| TypeError (what : string)
| IndexError
| HttpError (status : Z) (reason : string)   (* apiclient.errors.HttpError *)
| HttpLib2Error                               (* httplib2.HttpLib2Error *)
| AccessTokenRefreshError                     (* oauth2client.client *)
| GceError (message : string)                 (* gce_exception.GceError *)
| GceTokenError (message : string)            (* gce_exception.GceTokenError *)
| OtherException (name : string)              (* any exception no handler names *)
| Unmodelled (what : string)                  (* a value outside the fragment *)
| OutOfFuel.                                  (* the loop bound of the model *)

Inductive result (A : Type) : Type :=
| Ok (a : A)
| Raise (e : exn).
Arguments Ok {A} a.
Arguments Raise {A} e.

(** State and exceptions: the state survives a raise, as a mutated Python
    object does. *)
Definition SE (S A : Type) : Type := S -> S * result A.

Definition ret {S A : Type} (a : A) : SE S A := fun s => (s, Ok a).
Definition raise {S A : Type} (e : exn) : SE S A := fun s => (s, Raise e).
Definition lift {S A : Type} (r : result A) : SE S A := fun s => (s, r).
Definition bind {S A B : Type} (m : SE S A) (k : A -> SE S B) : SE S B :=
  fun s =>
    match m s with
    | (s', Ok a) => k a s'
    | (s', Raise e) => (s', Raise e)
    end.
Definition get {S : Type} : SE S S := fun s => (s, Ok s).
Definition modify {S : Type} (f : S -> S) : SE S unit := fun s => (f s, Ok tt).
Definition when {S : Type} (b : bool) (m : SE S unit) : SE S unit :=
  if b then m else ret tt.

(** [try: m  except <the exceptions h names>: h e] *)
Definition try_except {S A : Type} (m : SE S A) (h : exn -> option (SE S A))
    : SE S A :=
  fun s =>
    match m s with
    | (s', Ok a) => (s', Ok a)
    | (s', Raise e) =>
        match h e with
        | Some handler => handler s'
        | None => (s', Raise e)
        end
    end.

(** [for x in l: f x] *)
Fixpoint for_each {S A : Type} (l : list A) (f : A -> SE S unit) : SE S unit :=
  match l with
  | [] => ret tt
  | x :: l' => bind (f x) (fun _ => for_each l' f)
  end.

Declare Scope se_scope.
Delimit Scope se_scope with se.
Notation "x <- m ;; k" := (bind m (fun x => k))
  (at level 61, m at next level, right associativity) : se_scope.
Notation "m ;;; k" := (bind m (fun _ => k))
  (at level 61, right associativity) : se_scope.

(** The pure fragment: a [result] alone. *)
Definition rbind {A B : Type} (r : result A) (k : A -> result B) : result B :=
  match r with
  | Ok a => k a
  | Raise e => Raise e
  end.

Declare Scope res_scope.
Delimit Scope res_scope with res.
Notation "x <- r ;; k" := (rbind r (fun x => k))
  (at level 61, r at next level, right associativity) : res_scope.

Fixpoint rmap {A B : Type} (f : A -> result B) (l : list A) : result (list B) :=
  match l with
  | [] => Ok []
  | x :: l' =>
      match f x with
      | Ok y => match rmap f l' with Ok ys => Ok (y :: ys) | Raise e => Raise e end
      | Raise e => Raise e
      end
  end.

(** ** Dictionaries and the string operations the code uses *)

Fixpoint dict_get (d : pydict) (k : string) : option pyval :=
  match d with
  | [] => None
  | (k', v) :: d' => if String.eqb k k' then Some v else dict_get d' k
  end.

(** [d[k] = v]: replaces the entry of [k], or appends one. *)
Fixpoint dict_set (d : pydict) (k : string) (v : pyval) : pydict :=
  match d with
  | [] => [(k, v)]
  | (k', v') :: d' =>
      if String.eqb k k' then (k, v) :: d' else (k', v') :: dict_set d' k v
  end.

(** [d.update(other)] *)
Definition dict_update (d other : pydict) : pydict :=
  fold_left (fun acc kv => dict_set acc (fst kv) (snd kv)) other d.

(** [v[k]] for a string key [k]. *)
Definition py_getitem (v : pyval) (k : string) : result pyval :=
  match v with
  | PDict d => match dict_get d k with Some x => Ok x | None => Raise (KeyError k) end
  | _ => Raise (TypeError "subscript")
  end.

(** [v.get(k, default)] *)
Definition py_get (v : pyval) (k : string) (default : pyval) : result pyval :=
  match v with
  | PDict d => match dict_get d k with Some x => Ok x | None => Ok default end
  | _ => Raise (AttributeError "get")
  end.

(** [del d[k]] when present: how a named parameter leaves [**args]. *)
Definition dict_remove (d : pydict) (k : string) : pydict :=
  filter (fun kv => negb (String.eqb k (fst kv))) d.

(** [for x in v] *)
Definition py_iter (v : pyval) : result (list pyval) :=
  match v with
  | PList l => Ok l
  | PDict d => Ok (map (fun kv => PStr (fst kv)) d)
  | PStr s => Ok (map (fun c => PStr (String c EmptyString)) (list_ascii_of_string s))
  | _ => Raise (TypeError "iteration")
  end.

(** The decimal numeral of an integer. *)
Definition decimal (z : Z) : string := NilZero.string_of_int (Z.to_int z).

(** ['%s' % v] for the scalars; the rendering of a list or a dictionary
    ([repr] of its elements) is outside the fragment. *)
Definition py_str (v : pyval) : result string :=
  match v with
  | PNone => Ok "None"
  | PBool true => Ok "True"
  | PBool false => Ok "False"
  | PInt z => Ok (decimal z)
  | PStr s => Ok s
  | PList _ => Raise (Unmodelled "str of a list")
  | PDict _ => Raise (Unmodelled "str of a dict")
  end.

Definition slash : ascii := "/"%char.

(** [s.split('/')]: never empty. *)
Fixpoint split_slash (s : string) : list string :=
  match s with
  | EmptyString => [EmptyString]
  | String c s' =>
      if Ascii.eqb c slash then EmptyString :: split_slash s'
      else match split_slash s' with
           | [] => [String c EmptyString]
           | h :: t => String c h :: t
           end
  end.

(** [l[-1]] *)
Fixpoint last_item {A : Type} (l : list A) : result A :=
  match l with
  | [] => Raise IndexError
  | [x] => Ok x
  | _ :: l' => last_item l'
  end.

(** [v.split('/')[-1]] *)
Definition last_segment (v : pyval) : result pyval :=
  match v with
  | PStr s =>
      match last_item (split_slash s) with
      | Ok x => Ok (PStr x)
      | Raise e => Raise e
      end
  | _ => Raise (AttributeError "split")
  end.

(** ** Requests and the provider *)

Inductive collection : Type :=
| instances | firewalls | images | machineTypes | zones | networks.

Inductive verb : Type := insert_call | list_call | delete_call.

(** An [apiclient.http.HttpRequest] built by a method of a collection;
    [page_token] is what [list_next] adds. *)
Record HttpRequest : Type := mkRequest {
  req_collection : collection;
  req_verb : verb;
  req_params : pydict;
  page_token : option pyval
}.

Inductive Request : Type :=
| Single (r : HttpRequest)
| Batch (rs : list HttpRequest).      (* http.BatchHttpRequest *)

(** What [request.execute()] does.  A batch returns nothing and reports
    each sub-request to its callback, with an exception or without. *)
Inductive executed : Type :=
| Returned (v : pyval) (callbacks : list (option exn))
| Failed (e : exn).

Inductive event : Type :=
| Executed (r : Request)
| LoggedError (e : exn)           (* logging.error(exception) *)
| LoggedMessage (s : string).     (* logging.error(text) *)

(** Provider calls: state transformers over the trace, oldest event first. *)
Definition M (A : Type) : Type := SE (list event) A.

Definition emit (e : event) : M unit := modify (fun t => (t ++ [e])%list).

Record GceProject : Type := mkProject {
  settings : pyval;
  gce_url : string;
  project_id : pyval;
  zone_name : pyval;
  service : Request -> executed
}.

(** [project.settings['compute'][key]] *)
Definition compute_setting (p : GceProject) (key : string) : result pyval :=
  (c <- py_getitem (settings p) "compute" ;; py_getitem c key)%res.

(** [self.gce_project] *)
Definition attached (gp : option GceProject) : result GceProject :=
  match gp with
  | Some p => Ok p
  | None => Raise (AttributeError "gce_project")
  end.

(** ['%s/projects/%s/global/<kind>/%s' % (base, project, name)] *)
Definition resource_url (base : string) (project : pyval) (kind : string)
    (name : pyval) : result string :=
  (pr <- py_str project ;;
   n <- py_str name ;;
   Ok (base ++ "/projects/" ++ pr ++ "/global/" ++ kind ++ "/" ++ n))%res.

Definition GOOGLE_PROJECT : string := "google".

(** ** The resource classes of gce.py *)

Inductive scope : Type := zonal | global.

(** [if json_resource.get(key, None): <set>(json_resource[key])] *)
Definition optional_field {S : Type} (json_resource : pyval) (key : string)
    (set : pyval -> S -> S) : SE S unit :=
  (present <- lift (py_get json_resource key PNone) ;;
   when (truthy present)
     (v <- lift (py_getitem json_resource key) ;; modify (set v)))%se.

(** [if json_resource.get(key, None):
       if json_resource[key].get('items', None):
         <set>(json_resource[key]['items'])] *)
Definition optional_items {S : Type} (json_resource : pyval) (key : string)
    (set : pyval -> S -> S) : SE S unit :=
  (present <- lift (py_get json_resource key PNone) ;;
   when (truthy present)
     (holder <- lift (py_getitem json_resource key) ;;
      items <- lift (py_get holder "items" PNone) ;;
      when (truthy items)
        (holder' <- lift (py_getitem json_resource key) ;;
         v <- lift (py_getitem holder' "items") ;;
         modify (set v))))%se.

Module Zone.
Record t : Type := mk { name : pyval; gce_project : option GceProject }.

Definition __scope__ : scope := global.
Definition init (name : pyval) : t := mk name None.
Definition set_name (v : pyval) (self : t) : t := mk v (gce_project self).
Definition set_gce_project (p : GceProject) (self : t) : t :=
    mk (name self) (Some p).

Definition url (self : t) : result string :=
    (p <- attached (gce_project self) ;;
     resource_url (gce_url p) (project_id p) "zones" (name self))%res.

Definition set_defaults : SE t unit :=
    (self <- get ;;
     when (negb (truthy (name self)))
       (p <- lift (attached (gce_project self)) ;;
        v <- lift (compute_setting p "zone") ;;
        modify (set_name v)))%se.

Definition service_resource (self : t) : result collection :=
    (p <- attached (gce_project self) ;; Ok zones)%res.
End Zone.

Module MachineType.
Record t : Type := mk { name : pyval; gce_project : option GceProject }.

Definition __scope__ : scope := global.
Definition init (name : pyval) : t := mk name None.
Definition set_name (v : pyval) (self : t) : t := mk v (gce_project self).
Definition set_gce_project (p : GceProject) (self : t) : t :=
    mk (name self) (Some p).

Definition url (self : t) : result string :=
    (p <- attached (gce_project self) ;;
     resource_url (gce_url p) (project_id p) "machineTypes" (name self))%res.

Definition set_defaults : SE t unit :=
    (self <- get ;;
     when (negb (truthy (name self)))
       (p <- lift (attached (gce_project self)) ;;
        v <- lift (compute_setting p "machine_type") ;;
        modify (set_name v)))%se.

Definition service_resource (self : t) : result collection :=
    (p <- attached (gce_project self) ;; Ok machineTypes)%res.
End MachineType.

Module Network.
Record t : Type := mk { name : pyval; gce_project : option GceProject }.

Definition __scope__ : scope := global.
Definition init (name : pyval) : t := mk name None.
Definition set_name (v : pyval) (self : t) : t := mk v (gce_project self).
Definition set_gce_project (p : GceProject) (self : t) : t :=
    mk (name self) (Some p).

Definition url (self : t) : result string :=
    (p <- attached (gce_project self) ;;
     resource_url (gce_url p) (project_id p) "networks" (name self))%res.

Definition set_defaults : SE t unit :=
    (self <- get ;;
     when (negb (truthy (name self)))
       (p <- lift (attached (gce_project self)) ;;
        v <- lift (compute_setting p "network") ;;
        modify (set_name v)))%se.

Definition service_resource (self : t) : result collection :=
    (p <- attached (gce_project self) ;; Ok networks)%res.
End Network.

Module Image.
Record t : Type := mk {
    name : pyval;
    project : pyval;
    description : pyval;
    source_type : pyval;
    preferred_kernel : pyval;
    raw_disk : pyval;
    gce_project : option GceProject
  }.

Definition __scope__ : scope := global.

Definition init (name project description source_type preferred_kernel
      raw_disk : pyval) : t :=
    mk name project description source_type preferred_kernel raw_disk None.

  (** [Image(name)] and [Image()] *)
Definition named (name : pyval) : t :=
    init name (PStr GOOGLE_PROJECT) PNone PNone PNone PNone.
Definition new : t := named PNone.

Definition set_name (v : pyval) (self : t) : t :=
    mk v (project self) (description self) (source_type self)
       (preferred_kernel self) (raw_disk self) (gce_project self).
Definition set_description (v : pyval) (self : t) : t :=
    mk (name self) (project self) v (source_type self)
       (preferred_kernel self) (raw_disk self) (gce_project self).
Definition set_source_type (v : pyval) (self : t) : t :=
    mk (name self) (project self) (description self) v
       (preferred_kernel self) (raw_disk self) (gce_project self).
Definition set_preferred_kernel (v : pyval) (self : t) : t :=
    mk (name self) (project self) (description self) (source_type self)
       v (raw_disk self) (gce_project self).
Definition set_raw_disk (v : pyval) (self : t) : t :=
    mk (name self) (project self) (description self) (source_type self)
       (preferred_kernel self) v (gce_project self).
Definition set_gce_project (p : GceProject) (self : t) : t :=
    mk (name self) (project self) (description self) (source_type self)
       (preferred_kernel self) (raw_disk self) (Some p).

Definition url (self : t) : result string :=
    (p <- attached (gce_project self) ;;
     resource_url (gce_url p) (project self) "images" (name self))%res.

  (** The local [image] of the [json] property when its body ends. *)
Definition json_image (self : t) : pydict :=
    let image := [("name", name self)] in
    let image := if truthy (description self)
                 then dict_set image "description" (description self) else image in
    let image := if truthy (source_type self)
                 then dict_set image "sourceType" (source_type self) else image in
    let image := if truthy (preferred_kernel self)
                 then dict_set image "preferredKernel" (preferred_kernel self)
                 else image in
    let image := if truthy (raw_disk self)
                 then dict_set image "rawDisk" (raw_disk self) else image in
    image.

  (** The [json] property: the body builds [image] and ends without a
      [return], so the property evaluates to [None]. *)
Definition json (self : t) : result pyval :=
    let image := json_image self in
    Ok PNone.

Definition from_json (json_resource : pyval) : SE t unit :=
    (n <- lift (py_getitem json_resource "name") ;;
     modify (set_name n) ;;;
     optional_field json_resource "description" set_description ;;;
     optional_field json_resource "sourceType" set_source_type ;;;
     optional_field json_resource "preferredKernel" set_preferred_kernel ;;;
     optional_field json_resource "rawDisk" set_raw_disk)%se.

Definition set_defaults : SE t unit :=
    (self <- get ;;
     when (negb (truthy (name self)))
       (p <- lift (attached (gce_project self)) ;;
        v <- lift (compute_setting p "image") ;;
        modify (set_name v)))%se.

Definition service_resource (self : t) : result collection :=
    (p <- attached (gce_project self) ;; Ok images)%res.
End Image.

Module Instance.
Record t : Type := mk {
  name : pyval;
  zone : Zone.t;
  description : pyval;
  tags : pyval;
  image : Image.t;
  machine_type : MachineType.t;
  network_interfaces : pyval;
  disks : pyval;
  metadata : pyval;
  service_accounts : pyval;
  (* set by [from_json] only, when the provider sends them *)
  kernel : option pyval;
  status : option pyval;
  status_message : option pyval;
  (* set by the project client *)
  gce_project : option GceProject
}.

Definition __scope__ : scope := zonal.

Definition init (name zone_name description tags image_name image_project
    machine_type_name network_interfaces disks metadata service_accounts
    : pyval) : t :=
  mk name (Zone.init zone_name) description tags
     (Image.init image_name image_project PNone PNone PNone PNone)
     (MachineType.init machine_type_name)
     network_interfaces disks metadata service_accounts
     None None None None.

(** [Instance()] *)
Definition new : t :=
  init PNone PNone PNone PNone PNone (PStr GOOGLE_PROJECT) PNone PNone PNone
       PNone PNone.

Definition set_name (v : pyval) (s : t) : t :=
  mk v (zone s) (description s) (tags s) (image s) (machine_type s)
     (network_interfaces s) (disks s) (metadata s) (service_accounts s)
     (kernel s) (status s) (status_message s) (gce_project s).
Definition set_zone (v : Zone.t) (s : t) : t :=
  mk (name s) v (description s) (tags s) (image s) (machine_type s)
     (network_interfaces s) (disks s) (metadata s) (service_accounts s)
     (kernel s) (status s) (status_message s) (gce_project s).
Definition set_description (v : pyval) (s : t) : t :=
  mk (name s) (zone s) v (tags s) (image s) (machine_type s)
     (network_interfaces s) (disks s) (metadata s) (service_accounts s)
     (kernel s) (status s) (status_message s) (gce_project s).
Definition set_tags (v : pyval) (s : t) : t :=
  mk (name s) (zone s) (description s) v (image s) (machine_type s)
     (network_interfaces s) (disks s) (metadata s) (service_accounts s)
     (kernel s) (status s) (status_message s) (gce_project s).
Definition set_image (v : Image.t) (s : t) : t :=
  mk (name s) (zone s) (description s) (tags s) v (machine_type s)
     (network_interfaces s) (disks s) (metadata s) (service_accounts s)
     (kernel s) (status s) (status_message s) (gce_project s).
Definition set_machine_type (v : MachineType.t) (s : t) : t :=
  mk (name s) (zone s) (description s) (tags s) (image s) v
     (network_interfaces s) (disks s) (metadata s) (service_accounts s)
     (kernel s) (status s) (status_message s) (gce_project s).
Definition set_network_interfaces (v : pyval) (s : t) : t :=
  mk (name s) (zone s) (description s) (tags s) (image s) (machine_type s)
     v (disks s) (metadata s) (service_accounts s)
     (kernel s) (status s) (status_message s) (gce_project s).
Definition set_disks (v : pyval) (s : t) : t :=
  mk (name s) (zone s) (description s) (tags s) (image s) (machine_type s)
     (network_interfaces s) v (metadata s) (service_accounts s)
     (kernel s) (status s) (status_message s) (gce_project s).
Definition set_metadata (v : pyval) (s : t) : t :=
  mk (name s) (zone s) (description s) (tags s) (image s) (machine_type s)
     (network_interfaces s) (disks s) v (service_accounts s)
     (kernel s) (status s) (status_message s) (gce_project s).
Definition set_service_accounts (v : pyval) (s : t) : t :=
  mk (name s) (zone s) (description s) (tags s) (image s) (machine_type s)
     (network_interfaces s) (disks s) (metadata s) v
     (kernel s) (status s) (status_message s) (gce_project s).
Definition set_kernel (v : pyval) (s : t) : t :=
  mk (name s) (zone s) (description s) (tags s) (image s) (machine_type s)
     (network_interfaces s) (disks s) (metadata s) (service_accounts s)
     (Some v) (status s) (status_message s) (gce_project s).
Definition set_status (v : pyval) (s : t) : t :=
  mk (name s) (zone s) (description s) (tags s) (image s) (machine_type s)
     (network_interfaces s) (disks s) (metadata s) (service_accounts s)
     (kernel s) (Some v) (status_message s) (gce_project s).
Definition set_status_message (v : pyval) (s : t) : t :=
  mk (name s) (zone s) (description s) (tags s) (image s) (machine_type s)
     (network_interfaces s) (disks s) (metadata s) (service_accounts s)
     (kernel s) (status s) (Some v) (gce_project s).
Definition set_gce_project (p : GceProject) (s : t) : t :=
  mk (name s) (zone s) (description s) (tags s) (image s) (machine_type s)
     (network_interfaces s) (disks s) (metadata s) (service_accounts s)
     (kernel s) (status s) (status_message s) (Some p).

(** The [json] property. *)
Definition json (self : t) : result pyval :=
  (image_url <- Image.url (image self) ;;
   machine_type_url <- MachineType.url (machine_type self) ;;
   let instance := [("name", name self);
                    ("image", PStr image_url);
                    ("machineType", PStr machine_type_url);
                    ("networkInterfaces", network_interfaces self)] in
   let instance := if truthy (description self)
                   then dict_set instance "description" (description self)
                   else instance in
   let instance := if truthy (tags self)
                   then dict_set instance "tags" (PDict [("items", tags self)])
                   else instance in
   let instance := if truthy (disks self)
                   then dict_set instance "disks" (disks self) else instance in
   let instance := if truthy (metadata self)
                   then dict_set instance "metadata"
                          (PDict [("items", metadata self)])
                   else instance in
   let instance := if truthy (service_accounts self)
                   then dict_set instance "serviceAccounts" (service_accounts self)
                   else instance in
   Ok (PDict instance))%res.

Definition from_json (json_resource : pyval) : SE t unit :=
  (n <- lift (py_getitem json_resource "name") ;;
   modify (set_name n) ;;;
   z <- lift (zv <- py_getitem json_resource "zone" ;; last_segment zv)%res ;;
   modify (set_zone (Zone.init z)) ;;;
   i <- lift (iv <- py_getitem json_resource "image" ;; last_segment iv)%res ;;
   modify (set_image (Image.named i)) ;;;
   m <- lift (mv <- py_getitem json_resource "machineType" ;; last_segment mv)%res ;;
   modify (set_machine_type (MachineType.init m)) ;;;
   ni <- lift (py_getitem json_resource "networkInterfaces") ;;
   modify (set_network_interfaces ni) ;;;
   optional_field json_resource "description" set_description ;;;
   optional_items json_resource "tags" set_tags ;;;
   optional_field json_resource "kernel" set_kernel ;;;
   optional_field json_resource "status" set_status ;;;
   optional_field json_resource "statusMessage" set_status_message ;;;
   optional_field json_resource "disks" set_disks ;;;
   optional_items json_resource "metadata" set_metadata ;;;
   optional_field json_resource "serviceAccounts" set_service_accounts)%se.

(** Runs a method of the nested object held in a field. *)
Definition on_zone {A : Type} (m : SE Zone.t A) : SE t A :=
  fun s => let (z, r) := m (zone s) in (set_zone z s, r).
Definition on_image {A : Type} (m : SE Image.t A) : SE t A :=
  fun s => let (i, r) := m (image s) in (set_image i s, r).
Definition on_machine_type {A : Type} (m : SE MachineType.t A) : SE t A :=
  fun s => let (x, r) := m (machine_type s) in (set_machine_type x s, r).

Definition set_defaults : SE t unit :=
  (self <- get ;;
   p <- lift (attached (gce_project self)) ;;
   on_zone (modify (Zone.set_gce_project p)) ;;;
   on_image (modify (Image.set_gce_project p)) ;;;
   on_machine_type (modify (MachineType.set_gce_project p)) ;;;
   self <- get ;;
   when (negb (truthy (Zone.name (zone self)))) (on_zone Zone.set_defaults) ;;;
   self <- get ;;
   when (negb (truthy (Image.name (image self)))) (on_image Image.set_defaults) ;;;
   self <- get ;;
   when (negb (truthy (MachineType.name (machine_type self))))
     (on_machine_type MachineType.set_defaults) ;;;
   self <- get ;;
   when (negb (truthy (network_interfaces self)))
     (network_name <- lift (compute_setting p "network") ;;
      let network := Network.set_gce_project p (Network.init network_name) in
      network_url <- lift (Network.url network) ;;
      access_configs <- lift (compute_setting p "access_configs") ;;
      modify (set_network_interfaces
                (PList [PDict [("network", PStr network_url);
                               ("accessConfigs", access_configs)]]))))%se.

Definition service_resource (self : t) : result collection :=
  (p <- attached (gce_project self) ;; Ok instances)%res.
End Instance.

Module Firewall.
(** The [network] attribute holds a [Network] object after [__init__] and
    the provider's raw value after [from_json]. *)
Inductive network_attr : Type :=
| NetworkObject (n : Network.t)
| RawNetwork (v : pyval).

Record t : Type := mk {
  name : pyval;
  description : pyval;
  network : network_attr;
  source_ranges : pyval;
  source_tags : pyval;
  target_tags : pyval;
  allowed : pyval;
  gce_project : option GceProject
}.

Definition __scope__ : scope := global.

Definition init (name description network_name source_ranges source_tags
    target_tags allowed : pyval) : t :=
  mk name description (NetworkObject (Network.init network_name))
     source_ranges source_tags target_tags allowed None.

(** [Firewall()] *)
Definition new : t := init PNone PNone PNone PNone PNone PNone PNone.

Definition set_name (v : pyval) (s : t) : t :=
  mk v (description s) (network s) (source_ranges s) (source_tags s)
     (target_tags s) (allowed s) (gce_project s).
Definition set_network (v : network_attr) (s : t) : t :=
  mk (name s) (description s) v (source_ranges s) (source_tags s)
     (target_tags s) (allowed s) (gce_project s).
Definition set_source_ranges (v : pyval) (s : t) : t :=
  mk (name s) (description s) (network s) v (source_tags s)
     (target_tags s) (allowed s) (gce_project s).
Definition set_source_tags (v : pyval) (s : t) : t :=
  mk (name s) (description s) (network s) (source_ranges s) v
     (target_tags s) (allowed s) (gce_project s).
Definition set_allowed (v : pyval) (s : t) : t :=
  mk (name s) (description s) (network s) (source_ranges s) (source_tags s)
     (target_tags s) v (gce_project s).
Definition set_gce_project (p : GceProject) (s : t) : t :=
  mk (name s) (description s) (network s) (source_ranges s) (source_tags s)
     (target_tags s) (allowed s) (Some p).

(** [self.network.url] and [self.network.name] *)
Definition network_url (self : t) : result string :=
  match network self with
  | NetworkObject n => Network.url n
  | RawNetwork _ => Raise (AttributeError "url")
  end.
Definition network_name (self : t) : result pyval :=
  match network self with
  | NetworkObject n => Ok (Network.name n)
  | RawNetwork _ => Raise (AttributeError "name")
  end.

(** The [json] property. *)
Definition json (self : t) : result pyval :=
  (url <- network_url self ;;
   let firewall := [("name", name self);
                    ("network", PStr url);
                    ("allowed", allowed self)] in
   let firewall := if truthy (source_ranges self)
                   then dict_set firewall "sourceRanges" (source_ranges self)
                   else firewall in
   let firewall := if truthy (source_tags self)
                   then dict_set firewall "sourceTags" (source_tags self)
                   else firewall in
   let firewall := if truthy (target_tags self)
                   then dict_set firewall "targetTags" (target_tags self)
                   else firewall in
   Ok (PDict firewall))%res.

(** The last line stores [targetTags] in [source_tags], as the source does. *)
Definition from_json (json_resource : pyval) : SE t unit :=
  (n <- lift (py_getitem json_resource "name") ;;
   modify (set_name n) ;;;
   nw <- lift (py_getitem json_resource "network") ;;
   modify (set_network (RawNetwork nw)) ;;;
   a <- lift (py_getitem json_resource "allowed") ;;
   modify (set_allowed a) ;;;
   optional_field json_resource "sourceRanges" set_source_ranges ;;;
   optional_field json_resource "sourceTags" set_source_tags ;;;
   optional_field json_resource "targetTags" set_source_tags)%se.

(** [self.network.set_defaults()] *)
Definition on_network (m : SE Network.t unit) : SE t unit :=
  fun s =>
    match network s with
    | NetworkObject n => let (n', r) := m n in (set_network (NetworkObject n') s, r)
    | RawNetwork _ => (s, Raise (AttributeError "set_defaults"))
    end.

Definition set_defaults : SE t unit :=
  (self <- get ;;
   nn <- lift (network_name self) ;;
   when (negb (truthy nn)) (on_network Network.set_defaults) ;;;
   self <- get ;;
   when (negb (truthy (source_ranges self)) && negb (truthy (source_tags self)))
     (p <- lift (attached (gce_project self)) ;;
      v <- lift (fw <- compute_setting p "firewall" ;;
                 py_getitem fw "sourceRanges")%res ;;
      modify (set_source_ranges v)) ;;;
   self <- get ;;
   when (negb (truthy (allowed self)))
     (p <- lift (attached (gce_project self)) ;;
      v <- lift (fw <- compute_setting p "firewall" ;; py_getitem fw "allowed")%res ;;
      modify (set_allowed v)))%se.

Definition service_resource (self : t) : result collection :=
  (p <- attached (gce_project self) ;; Ok firewalls)%res.
End Firewall.

(** ** A resource of any class *)

Inductive resource_class : Type :=
| InstanceClass | FirewallClass | ImageClass
| MachineTypeClass | ZoneClass | NetworkClass.

Inductive GceResource : Type :=
| AnInstance (i : Instance.t)
| AFirewall (f : Firewall.t)
| AnImage (i : Image.t)
| AMachineType (m : MachineType.t)
| AZone (z : Zone.t)
| ANetwork (n : Network.t).

(** [resource_class()] *)
Definition construct (c : resource_class) : GceResource :=
  match c with
  | InstanceClass => AnInstance Instance.new
  | FirewallClass => AFirewall Firewall.new
  | ImageClass => AnImage Image.new
  | MachineTypeClass => AMachineType (MachineType.init PNone)
  | ZoneClass => AZone (Zone.init PNone)
  | NetworkClass => ANetwork (Network.init PNone)
  end.

Definition class_of (r : GceResource) : resource_class :=
  match r with
  | AnInstance _ => InstanceClass
  | AFirewall _ => FirewallClass
  | AnImage _ => ImageClass
  | AMachineType _ => MachineTypeClass
  | AZone _ => ZoneClass
  | ANetwork _ => NetworkClass
  end.

(** [resource.__scope__] *)
Definition scope_of (r : GceResource) : scope :=
  match r with
  | AnInstance _ => Instance.__scope__
  | AFirewall _ => Firewall.__scope__
  | AnImage _ => Image.__scope__
  | AMachineType _ => MachineType.__scope__
  | AZone _ => Zone.__scope__
  | ANetwork _ => Network.__scope__
  end.

(** [resource.name] *)
Definition name_of (r : GceResource) : pyval :=
  match r with
  | AnInstance i => Instance.name i
  | AFirewall f => Firewall.name f
  | AnImage i => Image.name i
  | AMachineType m => MachineType.name m
  | AZone z => Zone.name z
  | ANetwork n => Network.name n
  end.

(** [resource.status]: an attribute only [Instance.from_json] creates. *)
Definition status_of (r : GceResource) : result pyval :=
  match r with
  | AnInstance i =>
      match Instance.status i with
      | Some v => Ok v
      | None => Raise (AttributeError "status")
      end
  | _ => Raise (AttributeError "status")
  end.

(** [resource.zone.name] *)
Definition zone_name_of (r : GceResource) : result pyval :=
  match r with
  | AnInstance i => Ok (Zone.name (Instance.zone i))
  | _ => Raise (AttributeError "zone")
  end.

(** [resource.gce_project = project] *)
Definition attach (p : GceProject) (r : GceResource) : GceResource :=
  match r with
  | AnInstance i => AnInstance (Instance.set_gce_project p i)
  | AFirewall f => AFirewall (Firewall.set_gce_project p f)
  | AnImage i => AnImage (Image.set_gce_project p i)
  | AMachineType m => AMachineType (MachineType.set_gce_project p m)
  | AZone z => AZone (Zone.set_gce_project p z)
  | ANetwork n => ANetwork (Network.set_gce_project p n)
  end.

(** Runs a method of one class on a resource of that class. *)
Definition as_resource {T A : Type} (inj : T -> GceResource) (m : SE T A)
    (self : T) : GceResource * result A :=
  let (self', r) := m self in (inj self', r).

(** [resource.set_defaults()] *)
Definition set_defaults : SE GceResource unit :=
  fun r =>
    match r with
    | AnInstance i => as_resource AnInstance Instance.set_defaults i
    | AFirewall f => as_resource AFirewall Firewall.set_defaults f
    | AnImage i => as_resource AnImage Image.set_defaults i
    | AMachineType m => as_resource AMachineType MachineType.set_defaults m
    | AZone z => as_resource AZone Zone.set_defaults z
    | ANetwork n => as_resource ANetwork Network.set_defaults n
    end.

(** [resource.from_json(json_resource)]: three classes define it. *)
Definition from_json (json_resource : pyval) : SE GceResource unit :=
  fun r =>
    match r with
    | AnInstance i => as_resource AnInstance (Instance.from_json json_resource) i
    | AFirewall f => as_resource AFirewall (Firewall.from_json json_resource) f
    | AnImage i => as_resource AnImage (Image.from_json json_resource) i
    | _ => (r, Raise (AttributeError "from_json"))
    end.

(** [resource.json]: three classes define it. *)
Definition json (r : GceResource) : result pyval :=
  match r with
  | AnInstance i => Instance.json i
  | AFirewall f => Firewall.json f
  | AnImage i => Image.json i
  | _ => Raise (AttributeError "json")
  end.

(** [resource.service_resource()] *)
Definition service_resource (r : GceResource) : result collection :=
  match r with
  | AnInstance i => Instance.service_resource i
  | AFirewall f => Firewall.service_resource f
  | AnImage i => Image.service_resource i
  | AMachineType m => MachineType.service_resource m
  | AZone z => Zone.service_resource z
  | ANetwork n => Network.service_resource n
  end.

(** ** The project client: the methods of class GceProject *)

(** What a public method of the client hands back: nothing, or the list of
    resources of a listing. *)
Inductive response : Type :=
| RNone
| RResources (l : list GceResource).

Module Project.

(** [self._batch_response(request_id, response, exception)] *)
Definition _batch_response (exception : option exn) : M unit :=
  match exception with
  | Some e => emit (LoggedError e)
  | None => ret tt
  end.

(** [request.execute()]: one call of the provider.  A batch reports each
    sub-request to the callback it was added with and returns [None]. *)
Definition execute (self : GceProject) (request : Request) : M pyval :=
  (emit (Executed request) ;;;
   match service self request with
   | Returned v callbacks =>
       match request with
       | Single _ => ret v
       | Batch _ => for_each callbacks _batch_response ;;; ret PNone
       end
   | Failed e => raise e
   end)%se.

Definition _run_request (self : GceProject) (request : Request) : M pyval :=
  try_except (execute self request)
    (fun e =>
       match e with
       | HttpError status reason =>
           Some (emit (LoggedError e) ;;;
                 lift (st <- py_str (PInt status) ;;
                       Raise (GceError ("HttpError: " ++ st ++ " " ++ reason)))%res)%se
       | HttpLib2Error =>
           Some (emit (LoggedError e) ;;;
                 raise (GceError "Transport Error occurred"))%se
       | AccessTokenRefreshError =>
           Some (emit (LoggedError e) ;;;
                 raise (GceTokenError "Access Token refresh error"))%se
       | _ => None
       end).

(** [except error.GceError: raise] and [except error.GceTokenError: raise] *)
Definition reraise {A : Type} (e : exn) : option (M A) :=
  match e with
  | GceError _ => Some (raise e)
  | GceTokenError _ => Some (raise e)
  | _ => None
  end.

(** Runs a method of a resource from inside a provider call; the resource
    it leaves is handed back with the result. *)
Definition on_resource {A : Type} (r : GceResource) (m : SE GceResource A)
    : M (GceResource * A) :=
  fun t =>
    match m r with
    | (r', Ok a) => (t, Ok (r', a))
    | (_, Raise e) => (t, Raise e)
    end.

Definition _insert_request (self : GceProject) : SE GceResource HttpRequest :=
  (set_defaults ;;;
   resource <- get ;;
   body <- lift (json resource) ;;
   let params := [("project", project_id self); ("body", body)] in
   params <- match scope_of resource with
             | zonal => zn <- lift (zone_name_of resource) ;;
                        ret (dict_set params "zone" zn)
             | global => ret params
             end ;;
   c <- lift (service_resource resource) ;;
   ret (mkRequest c insert_call params None))%se.

Definition _list_request (self : GceProject) (resource : GceResource)
    (zone : pyval) (args : pydict) : result HttpRequest :=
  (let params := [("project", project_id self)] in
   let params := match args with
                 | [] => params
                 | _ :: _ => dict_update params args
                 end in
   let params := match scope_of resource with
                 | zonal =>
                     let zone := if negb (truthy zone) then zone_name self
                                 else zone in
                     dict_set params "zone" zone
                 | global => params
                 end in
   c <- service_resource resource ;;
   Ok (mkRequest c list_call params None))%res.

Definition _delete_request (self : GceProject) : SE GceResource HttpRequest :=
  (set_defaults ;;;
   resource <- get ;;
   let params := [("project", project_id self)] in
   let params := match resource with
                 | AnInstance _ => dict_set params "instance" (name_of resource)
                 | _ => params
                 end in
   let params := match resource with
                 | AnImage _ => dict_set params "image" (name_of resource)
                 | _ => params
                 end in
   let params := match resource with
                 | AFirewall _ => dict_set params "firewall" (name_of resource)
                 | _ => params
                 end in
   params <- match scope_of resource with
             | zonal => zn <- lift (zone_name_of resource) ;;
                        ret (dict_set params "zone" zn)
             | global => ret params
             end ;;
   c <- lift (service_resource resource) ;;
   ret (mkRequest c delete_call params None))%se.

Definition insert (self : GceProject) (resource : GceResource) : M response :=
  (let resource := attach self resource in
   built <- on_resource resource (_insert_request self) ;;
   try_except (_run_request self (Single (snd built)) ;;; ret tt) reraise ;;;
   ret RNone)%se.

(** The loop of the two bulk methods: attach, build, [batch.add]. *)
Fixpoint add_all (self : GceProject) (build : SE GceResource HttpRequest)
    (resources : list GceResource) (batch : list HttpRequest)
    : M (list HttpRequest) :=
  match resources with
  | [] => ret batch
  | resource :: rest =>
      (built <- on_resource (attach self resource) build ;;
       add_all self build rest (batch ++ [snd built])%list)%se
  end.

Definition bulk_insert (self : GceProject) (resources : list GceResource)
    : M response :=
  (batch <- add_all self (_insert_request self) resources [] ;;
   try_except (_run_request self (Batch batch) ;;; ret tt) reraise ;;;
   ret RNone)%se.

Definition bulk_delete (self : GceProject) (resources : list GceResource)
    : M response :=
  (batch <- add_all self (_delete_request self) resources [] ;;
   try_except (_run_request self (Batch batch) ;;; ret tt) reraise ;;;
   ret RNone)%se.

(** [collection.list_next(previous_request, previous_response)] of the API
    client: no request when the response has no [nextPageToken], otherwise
    the previous request with that token. *)
Definition with_token (request : HttpRequest) (token : pyval) : HttpRequest :=
  mkRequest (req_collection request) (req_verb request) (req_params request)
            (Some token).

Definition list_next (previous_request : HttpRequest)
    (previous_response : pyval) : result (option HttpRequest) :=
  match previous_response with
  | PDict d =>
      match dict_get d "nextPageToken" with
      | None => Ok None
      | Some token => Ok (Some (with_token previous_request token))
      end
  | _ => Raise (TypeError "in")
  end.

(** [new_resource = resource_class(); new_resource.from_json(result)] *)
Definition converted (c : resource_class) (item : pyval) : result GceResource :=
  match from_json item (construct c) with
  | (r, Ok _) => Ok r
  | (_, Raise e) => Raise e
  end.

(** The [while request:] loop of [_list], bounded by [fuel] iterations. *)
Fixpoint list_pages (fuel : nat) (self : GceProject) (c : resource_class)
    (resource : GceResource) (zone : pyval) (args : pydict)
    (request : HttpRequest) (resources : list GceResource)
    : M (list GceResource) :=
  match fuel with
  | O => raise OutOfFuel
  | S fuel' =>
      (results <- try_except (_run_request self (Single request)) reraise ;;
       items <- lift (its <- py_get results "items" (PList []) ;; py_iter its)%res ;;
       new_resources <- lift (rmap (converted c) items) ;;
       let resources := (resources ++ new_resources)%list in
       previous <- lift (_ <- service_resource resource ;;
                         _list_request self resource zone args)%res ;;
       next <- lift (list_next previous results) ;;
       match next with
       | None => ret resources
       | Some request' =>
           list_pages fuel' self c resource zone args request' resources
       end)%se
  end.

Definition _list (fuel : nat) (self : GceProject) (c : resource_class)
    (zone : pyval) (args : pydict) : M response :=
  (let resource := attach self (construct c) in
   request <- lift (_list_request self resource zone args) ;;
   resources <- list_pages fuel self c resource zone args request [] ;;
   ret (RResources resources))%se.

(** [zone_name] is a named parameter: it leaves [**args]. *)
Definition list_instances (fuel : nat) (self : GceProject) (zone : pyval)
    (args : pydict) : M response :=
  _list fuel self InstanceClass zone args.

Definition list_firewalls (fuel : nat) (self : GceProject) (args : pydict)
    : M response :=
  match dict_get args "zone_name" with
  | Some zone => _list fuel self FirewallClass zone (dict_remove args "zone_name")
  | None => _list fuel self FirewallClass PNone args
  end.

Definition list_images (fuel : nat) (self : GceProject) (args : pydict)
    : M response :=
  match dict_get args "zone_name" with
  | Some zone => _list fuel self ImageClass zone (dict_remove args "zone_name")
  | None => _list fuel self ImageClass PNone args
  end.

End Project.

(** ** json.dumps *)

Definition dquote : ascii := ascii_of_nat 34.
Definition backslash : ascii := ascii_of_nat 92.

Definition hex_digit (n : nat) : ascii :=
  ascii_of_nat (if Nat.ltb n 10 then 48 + n else 87 + n).

(** One character of a JSON string, as [encode_basestring_ascii] writes it;
    bytes above 127 (which it first decodes as UTF-8) are outside the
    fragment. *)
Definition json_char (c : ascii) : result string :=
  let n := nat_of_ascii c in
  let esc (x : string) := Ok (String backslash x) in
  if Nat.eqb n 34 then esc (String dquote EmptyString)
  else if Nat.eqb n 92 then esc (String backslash EmptyString)
  else if Nat.eqb n 8 then esc "b"
  else if Nat.eqb n 12 then esc "f"
  else if Nat.eqb n 10 then esc "n"
  else if Nat.eqb n 13 then esc "r"
  else if Nat.eqb n 9 then esc "t"
  else if Nat.ltb n 32 || Nat.eqb n 127
       then esc (String "u" (String "0" (String "0"
                  (String (hex_digit (n / 16))
                     (String (hex_digit (n mod 16)) EmptyString)))))
  else if Nat.ltb n 127 then Ok (String c EmptyString)
  else Raise (Unmodelled "non-ASCII string").

Fixpoint json_chars (s : string) : result string :=
  match s with
  | EmptyString => Ok EmptyString
  | String c s' =>
      (x <- json_char c ;; rest <- json_chars s' ;; Ok (x ++ rest))%res
  end.

Definition json_string (s : string) : result string :=
  (body <- json_chars s ;;
   Ok (String dquote body ++ String dquote EmptyString))%res.

(** [json.dumps(v)] with the default separators; the entries of an object
    are written in the order of the dictionary. *)
Fixpoint json_dumps (v : pyval) : result string :=
  match v with
  | PNone => Ok "null"
  | PBool true => Ok "true"
  | PBool false => Ok "false"
  | PInt z => py_str (PInt z)
  | PStr s => json_string s
  | PList l =>
      let fix elements (l : list pyval) : result string :=
        match l with
        | [] => Ok EmptyString
        | [x] => json_dumps x
        | x :: l' =>
            (a <- json_dumps x ;; b <- elements l' ;; Ok (a ++ ", " ++ b))%res
        end in
      (body <- elements l ;; Ok ("[" ++ body ++ "]"))%res
  | PDict d =>
      let fix entries (d : list (string * pyval)) : result string :=
        match d with
        | [] => Ok EmptyString
        | [(k, x)] =>
            (a <- json_string k ;; b <- json_dumps x ;; Ok (a ++ ": " ++ b))%res
        | (k, x) :: d' =>
            (a <- json_string k ;; b <- json_dumps x ;; c <- entries d' ;;
             Ok (a ++ ": " ++ b ++ ", " ++ c))%res
        end in
      (body <- entries d ;; Ok ("{" ++ body ++ "}"))%res
  end.

(** ** The App Engine helper: gce_appengine.py *)

Definition MAX_RESULTS : Z := 100.

(** The response of a [webapp2.RequestHandler]. *)
Record Response : Type := mkResponse {
  status : Z * string;                 (* set_status(code, message) *)
  headers : list (string * string);
  out : string                         (* what out.write has written *)
}.

(** The provider trace, the response of the request handler, and the
    [response] attribute of the helper object itself (class GceAppEngine
    defines none). *)
Record world : Type := mkWorld {
  trace : list event;
  handler_response : Response;
  self_response : option Response
}.

Definition H (A : Type) : Type := SE world A.

(** A provider call made from the helper. *)
Definition call {A : Type} (m : M A) : H A :=
  fun w =>
    let (t, r) := m (trace w) in
    (mkWorld t (handler_response w) (self_response w), r).

(** An update of [request_handler.response]. *)
Definition on_response (f : Response -> Response) : H unit :=
  modify (fun w => mkWorld (trace w) (f (handler_response w)) (self_response w)).

(** An update of [self.response]. *)
Definition on_self_response (f : Response -> Response) : H unit :=
  fun w =>
    match self_response w with
    | Some r => (mkWorld (trace w) (handler_response w) (Some (f r)), Ok tt)
    | None => (w, Raise (AttributeError "response"))
    end.

(** [response.set_status(code, message)] *)
Definition set_status (code : Z) (message : string) (r : Response) : Response :=
  mkResponse (code, message) (headers r) (out r).

Definition lower (c : ascii) : ascii :=
  let n := nat_of_ascii c in
  if Nat.leb 65 n && Nat.leb n 90 then ascii_of_nat (n + 32) else c.

Fixpoint lowercase (s : string) : string :=
  match s with
  | EmptyString => EmptyString
  | String c s' => String (lower c) (lowercase s')
  end.

(** [response.headers[key] = value]: header names compare without case,
    the entries of the name are replaced by the new one. *)
Definition set_header (key value : string) (r : Response) : Response :=
  mkResponse (status r)
    (filter (fun kv => negb (String.eqb (lowercase (fst kv)) (lowercase key)))
            (headers r) ++ [(key, value)])%list
    (out r).

(** [response.headers[key]] *)
Definition header (key : string) (r : Response) : option string :=
  match filter (fun kv => String.eqb (lowercase (fst kv)) (lowercase key))
               (headers r) with
  | [] => None
  | kv :: rest => Some (snd (List.last rest kv))
  end.

(** [response.out.write(text)] *)
Definition write (text : string) (r : Response) : Response :=
  mkResponse (status r) (headers r) (out r ++ text).

(** A keyword argument of a client method: a value or a list of resources. *)
Inductive argument : Type :=
| Value (v : pyval)
| Resources (l : list GceResource).

Definition kwargs : Type := list (string * argument).

(** A method within GceProject, called as [gce_method( **args )]. *)
Definition gce_method : Type := kwargs -> M response.

(** The keyword arguments of a listing, as the dictionary [**args]. *)
Fixpoint listing_args (args : kwargs) : result pydict :=
  match args with
  | [] => Ok []
  | (k, Value v) :: rest => (d <- listing_args rest ;; Ok ((k, v) :: d))%res
  | (_, Resources _) :: _ => Raise (Unmodelled "resources in a listing")
  end.

(** [gce_project.list_instances], [list_firewalls], [list_images] and
    [bulk_delete] as methods called with keyword arguments. *)
Definition list_instances_method (fuel : nat) (p : GceProject) : gce_method :=
  fun args =>
    (d <- lift (listing_args args) ;;
     match dict_get d "zone_name" with
     | Some zone =>
         Project.list_instances fuel p zone (dict_remove d "zone_name")
     | None => Project.list_instances fuel p PNone d
     end)%se.

Definition list_firewalls_method (fuel : nat) (p : GceProject) : gce_method :=
  fun args => (d <- lift (listing_args args) ;; Project.list_firewalls fuel p d)%se.

Definition list_images_method (fuel : nat) (p : GceProject) : gce_method :=
  fun args => (d <- lift (listing_args args) ;; Project.list_images fuel p d)%se.

Definition bulk_delete_method (p : GceProject) : gce_method :=
  fun args =>
    match args with
    | [(k, Resources l)] =>
        if String.eqb k "resources" then Project.bulk_delete p l
        else raise (TypeError "bulk_delete arguments")
    | _ => raise (TypeError "bulk_delete arguments")
    end.

Definition bulk_insert_method (p : GceProject) : gce_method :=
  fun args =>
    match args with
    | [(k, Resources l)] =>
        if String.eqb k "resources" then Project.bulk_insert p l
        else raise (TypeError "bulk_insert arguments")
    | _ => raise (TypeError "bulk_insert arguments")
    end.

Definition insert_method (p : GceProject) : gce_method :=
  fun args =>
    match args with
    | [(k, Resources [r])] =>
        if String.eqb k "resource" then Project.insert p r
        else raise (TypeError "insert arguments")
    | _ => raise (TypeError "insert arguments")
    end.

(** [if response:] *)
Definition response_truthy (r : response) : bool :=
  match r with
  | RNone => false
  | RResources [] => false
  | RResources (_ :: _) => true
  end.

(** [for resource in resources] *)
Definition response_iter (r : response) : result (list GceResource) :=
  match r with
  | RNone => Raise (TypeError "iteration")
  | RResources l => Ok l
  end.

Module GceAppEngine.

Definition run_gce_request (gce_method : gce_method) (error_message : string)
    (args : kwargs) : H response :=
  try_except (call (gce_method args))
    (fun e =>
       match e with
       | GceError message =>
           Some (call (emit (LoggedMessage (error_message ++ message))) ;;;
                 on_response (set_status 500 (error_message ++ message)) ;;;
                 ret RNone)%se
       | GceTokenError _ =>
           Some (on_response (set_status 401 "Unauthorized.") ;;;
                 ret RNone)%se
       | _ => None
       end).

(** [resource_dict[resource.name] = {'status': resource.status}]: the
    dictionaries of the model are keyed by strings. *)
Definition add_status (resource_dict : pydict) (resource : GceResource)
    : result pydict :=
  (st <- status_of resource ;;
   match name_of resource with
   | PStr n => Ok (dict_set resource_dict n (PDict [("status", st)]))
   | PList _ => Raise (TypeError "unhashable")
   | PDict _ => Raise (TypeError "unhashable")
   | _ => Raise (Unmodelled "key that is not a string")
   end)%res.

Fixpoint status_dict (resources : list GceResource) (resource_dict : pydict)
    : result pydict :=
  match resources with
  | [] => Ok resource_dict
  | resource :: rest =>
      (d <- add_status resource_dict resource ;; status_dict rest d)%res
  end.

Definition list_demo_resources (demo_name : pyval) (lister : gce_method)
    : H unit :=
  (filter <- lift (n <- py_str demo_name ;; Ok ("name eq ^" ++ n ++ ".*"))%res ;;
   resources <- run_gce_request lister "Error listing resources: "
                  [("filter", Value (PStr filter));
                   ("maxResults", Value (PInt MAX_RESULTS))] ;;
   listed <- lift (response_iter resources) ;;
   resource_dict <- lift (status_dict listed []) ;;
   let result_dict := PDict [("resources", PDict resource_dict)] in
   on_response (set_header "Content-Type" "application/json") ;;;
   body <- lift (json_dumps result_dict) ;;
   on_response (write body))%se.

(** The confirmation is written to [self.response], not to the response of
    [request_handler]. *)
Definition delete_demo_resources (gce_project : GceProject) (demo_name : pyval)
    (lister : gce_method) : H unit :=
  (filter <- lift (n <- py_str demo_name ;; Ok ("name eq ^" ++ n ++ "-.*"))%res ;;
   resources <- run_gce_request lister "Error listing resources: "
                  [("filter", Value (PStr filter));
                   ("maxResults", Value (PInt MAX_RESULTS))] ;;
   when (response_truthy resources)
     (response <- run_gce_request (bulk_delete_method gce_project)
                    "Error deleting resources: "
                    [("resources",
                      Resources match resources with
                                | RResources l => l
                                | RNone => []
                                end)] ;;
      when (response_truthy response)
        (on_self_response (set_header "Content-Type" "text/plain") ;;;
         on_self_response (write "stopping cluster"))))%se.

End GceAppEngine.

(** ** What the properties are stated with *)

(** The data attributes of a resource, nested names included; the
    back-reference [gce_project] is context, not data. *)
Definition present (k : string) (v : option pyval) : list (string * pyval) :=
  match v with
  | Some x => [(k, x)]
  | None => []
  end.

Definition fields (r : GceResource) : list (string * pyval) :=
  match r with
  | AnInstance i =>
      [("name", Instance.name i);
       ("zone.name", Zone.name (Instance.zone i));
       ("description", Instance.description i);
       ("tags", Instance.tags i);
       ("image.name", Image.name (Instance.image i));
       ("image.project", Image.project (Instance.image i));
       ("image.description", Image.description (Instance.image i));
       ("image.source_type", Image.source_type (Instance.image i));
       ("image.preferred_kernel", Image.preferred_kernel (Instance.image i));
       ("image.raw_disk", Image.raw_disk (Instance.image i));
       ("machine_type.name", MachineType.name (Instance.machine_type i));
       ("network_interfaces", Instance.network_interfaces i);
       ("disks", Instance.disks i);
       ("metadata", Instance.metadata i);
       ("service_accounts", Instance.service_accounts i)]
      ++ present "kernel" (Instance.kernel i)
      ++ present "status" (Instance.status i)
      ++ present "status_message" (Instance.status_message i)
  | AFirewall f =>
      [("name", Firewall.name f);
       ("description", Firewall.description f);
       match Firewall.network f with
       | Firewall.NetworkObject n => ("network.name", Network.name n)
       | Firewall.RawNetwork v => ("network", v)
       end;
       ("source_ranges", Firewall.source_ranges f);
       ("source_tags", Firewall.source_tags f);
       ("target_tags", Firewall.target_tags f);
       ("allowed", Firewall.allowed f)]
  | AnImage i =>
      [("name", Image.name i);
       ("project", Image.project i);
       ("description", Image.description i);
       ("source_type", Image.source_type i);
       ("preferred_kernel", Image.preferred_kernel i);
       ("raw_disk", Image.raw_disk i)]
  | AMachineType m => [("name", MachineType.name m)]
  | AZone z => [("name", Zone.name z)]
  | ANetwork n => [("name", Network.name n)]
  end%list.

(** The provider answers [request] and the requests that follow it with
    [pages]: every page but the last names the token of the next. *)
Inductive serves (self : GceProject) (base : HttpRequest)
    : HttpRequest -> list pydict -> Prop :=
| serves_last (request : HttpRequest) (page : pydict) (cbs : list (option exn)) :
    service self (Single request) = Returned (PDict page) cbs ->
    dict_get page "nextPageToken" = None ->
    serves self base request [page]
| serves_more (request : HttpRequest) (page : pydict) (cbs : list (option exn))
    (token : pyval) (pages : list pydict) :
    service self (Single request) = Returned (PDict page) cbs ->
    dict_get page "nextPageToken" = Some token ->
    serves self base (Project.with_token base token) pages ->
    serves self base request (page :: pages).

(** The items of one page. *)
Definition page_items (page : pydict) : result (list pyval) :=
  (its <- py_get (PDict page) "items" (PList []) ;; py_iter its)%res.

(** The concatenation of every page's items, each converted by [from_json]
    on a new object of the class, in the order of the pages and items. *)
Fixpoint collect (c : resource_class) (pages : list pydict)
    : result (list GceResource) :=
  match pages with
  | [] => Ok []
  | page :: rest =>
      (items <- page_items page ;;
       here <- rmap (Project.converted c) items ;;
       more <- collect c rest ;;
       Ok (here ++ more)%list)%res
  end.

(** The requests that fetch [pages], starting with [request]. *)
Fixpoint page_requests (base request : HttpRequest) (pages : list pydict)
    : list HttpRequest :=
  match pages with
  | [] => []
  | page :: rest =>
      request ::
      match dict_get page "nextPageToken" with
      | Some token => page_requests base (Project.with_token base token) rest
      | None => []
      end
  end.

(** The number of provider calls in a trace. *)
Definition calls (t : list event) : nat :=
  length (filter (fun e => match e with Executed _ => true | _ => false end) t).

(** No character of the string is a slash. *)
Fixpoint no_slash (s : string) : bool :=
  match s with
  | EmptyString => true
  | String c s' => negb (Ascii.eqb c slash) && no_slash s'
  end.

(** [reread] is [original] when that was set. *)
Definition reread (original reread : pyval) : Prop :=
  truthy original = true -> reread = original.

(** What the local mapping of [Image.json] holds for the attribute [v]. *)
Definition when_set (v : pyval) : option pyval :=
  if truthy v then Some v else None.

(** Field by field: the same key, and the value is kept or was unset. *)
Definition kept (before after : string * pyval) : Prop :=
  fst before = fst after /\
  (snd before = snd after \/ truthy (snd before) = false).

(** A method that hands back [None] whenever it returns. *)
Definition returns_nothing (m : gce_method) : Prop :=
  forall args t t' v, m args t = (t', Ok v) -> v = RNone.

(** A string between double quotes. *)
Definition quoted (s : string) : string :=
  String dquote (s ++ String dquote EmptyString).

(** The body of the listing of [demoA-1] and [demoB-2]. *)
Definition demo_listing (status_a status_b : string) : string :=
  "{" ++ quoted "resources" ++ ": {"
      ++ quoted "demoA-1" ++ ": {" ++ quoted "status" ++ ": " ++ quoted status_a
      ++ "}, "
      ++ quoted "demoB-2" ++ ": {" ++ quoted "status" ++ ": " ++ quoted status_b
      ++ "}}}".

(** ** A project to run the code on *)

Definition demo_settings : pyval :=
  PDict [("project", PStr "my-project");
         ("compute",
          PDict [("api_version", PStr "v1beta14");
                 ("zone", PStr "us-central1-a");
                 ("network", PStr "default");
                 ("machine_type", PStr "n1-standard-1");
                 ("image", PStr "debian-7");
                 ("access_configs",
                  PList [PDict [("type", PStr "ONE_TO_ONE_NAT")]]);
                 ("firewall",
                  PDict [("sourceRanges", PList [PStr "0.0.0.0/0"]);
                         ("allowed",
                          PList [PDict [("IPProtocol", PStr "tcp")]])])])].

Definition demo_url : string := "https://www.googleapis.com/compute/v1beta14".

(** What the provider sends for the instance [name]. *)
Definition listed_instance (name status : string) : pyval :=
  PDict [("name", PStr name);
         ("zone", PStr (demo_url ++ "/projects/my-project/zones/us-central1-a"));
         ("image", PStr (demo_url ++ "/projects/google/global/images/debian-7"));
         ("machineType",
          PStr (demo_url
                ++ "/projects/my-project/global/machineTypes/n1-standard-1"));
         ("networkInterfaces",
          PList [PDict [("network",
                         PStr (demo_url
                               ++ "/projects/my-project/global/networks/default"))]]);
         ("status", PStr status)].

(** A provider that lists [items] on one page and on which every other
    call succeeds. *)
Definition demo_service (items : list pyval) (request : Request) : executed :=
  match request with
  | Single r =>
      match req_verb r with
      | list_call => Returned (PDict [("items", PList items)]) []
      | _ => Returned (PDict []) []
      end
  | Batch rs => Returned PNone (map (fun _ => None) rs)
  end.

(** A provider that lists [first] on a page that names a next one, and
    [second] on that next page. *)
Definition paged_service (first second : list pyval) (request : Request)
    : executed :=
  match request with
  | Single r =>
      match page_token r with
      | None =>
          Returned (PDict [("items", PList first);
                           ("nextPageToken", PStr "page-2")]) []
      | Some _ => Returned (PDict [("items", PList second)]) []
      end
  | Batch rs => Returned PNone (map (fun _ => None) rs)
  end.

Definition project_with (service : Request -> executed) : GceProject :=
  mkProject demo_settings demo_url (PStr "my-project") (PStr "us-central1-a")
            service.

Definition demo_project (items : list pyval) : GceProject :=
  project_with (demo_service items).

Definition failing_project (e : exn) : GceProject :=
  project_with (fun _ => Failed e).

Definition no_response : Response := mkResponse (200%Z, "OK") [] "".

(** An instance and a firewall as a caller builds them, attached the way
    [insert] and [_insert_request] attach them. *)
Definition demo_instance : Instance.t :=
  let p := demo_project [] in
  Instance.mk (PStr "demo-1")
    (Zone.mk (PStr "us-central1-a") (Some p))
    (PStr "a demo instance") (PList [PStr "web"])
    (Image.mk (PStr "debian-7") (PStr GOOGLE_PROJECT) PNone PNone PNone PNone
              (Some p))
    (MachineType.mk (PStr "n1-standard-1") (Some p))
    (PList [PDict [("network", PStr "default")]])
    PNone PNone PNone None None None (Some p).

Definition demo_firewall : Firewall.t :=
  let p := demo_project [] in
  Firewall.mk (PStr "demo-fw") (PStr "a demo firewall")
    (Firewall.NetworkObject (Network.mk (PStr "default") (Some p)))
    (PList [PStr "10.0.0.0/8"]) PNone (PList [PStr "web"])
    (PList [PDict [("IPProtocol", PStr "tcp")]]) (Some p).

(** An instance of which the caller set only the name, attached. *)
Definition bare_instance : Instance.t :=
  Instance.set_gce_project (demo_project [])
    (Instance.init (PStr "demo-1") PNone PNone PNone PNone (PStr GOOGLE_PROJECT)
                   PNone PNone PNone PNone PNone).

(** The two pages of [paged_service]. *)
Definition two_pages : list pydict :=
  [[("items", PList [listed_instance "demo-1" "RUNNING"]);
    ("nextPageToken", PStr "page-2")];
   [("items", PList [listed_instance "demo-2" "STAGING"])]].

Definition paged_project : GceProject :=
  project_with (paged_service [listed_instance "demo-1" "RUNNING"]
                              [listed_instance "demo-2" "STAGING"]).

(** ** The constructor of the client *)

Definition API : string := "compute".
Definition GCE_URL : string := "https://www.googleapis.com/" ++ API.

(** [GceProject.__init__], given what [json.loads] read from settings.json
    and the service [discovery.build] returned for the authorized
    transport. *)
Definition __init__ (loaded : pyval) (built : Request -> executed)
    (project_id zone_name : pyval) : result GceProject :=
  (version <- (c <- py_getitem loaded "compute" ;; py_getitem c "api_version") ;;
   v <- py_str version ;;
   let gce_url := GCE_URL ++ "/" ++ v in
   _ <- (c <- py_getitem loaded "compute" ;; py_getitem c "api_version") ;;
   project_id <- (if negb (truthy project_id)
                  then py_getitem loaded "project" else Ok project_id) ;;
   zone_name <- (if negb (truthy zone_name)
                 then (c <- py_getitem loaded "compute" ;; py_getitem c "zone")
                 else Ok zone_name) ;;
   Ok (mkProject loaded gce_url project_id zone_name built))%res.

(** ** What the further properties are stated with *)

(** The requests a bulk method builds, one per resource, each resource
    attached first. *)
Definition requests_for (self : GceProject)
    (build : SE GceResource HttpRequest) (resources : list GceResource)
    : result (list HttpRequest) :=
  rmap (fun r => match build (attach self r) with
                 | (_, Ok q) => Ok q
                 | (_, Raise e) => Raise e
                 end) resources.

(** What the callback of a batch logs. *)
Fixpoint logged (callbacks : list (option exn)) : list event :=
  match callbacks with
  | [] => []
  | Some e :: rest => LoggedError e :: logged rest
  | None :: rest => logged rest
  end.

(** The exception [_run_request] raises for the exception of the provider
    call. *)
Definition translated (e : exn) : exn :=
  match e with
  | HttpError st reason => GceError ("HttpError: " ++ decimal st ++ " " ++ reason)
  | HttpLib2Error => GceError "Transport Error occurred"
  | AccessTokenRefreshError => GceTokenError "Access Token refresh error"
  | _ => e
  end.

(** What [_run_request] logs for it. *)
Definition logged_failure (e : exn) : list event :=
  match e with
  | HttpError _ _ | HttpLib2Error | AccessTokenRefreshError => [LoggedError e]
  | _ => []
  end.

(** The provider answers [request] and the requests that follow with
    [pages], each naming a next page, and then fails with [e]. *)
Inductive fails_after (self : GceProject) (base : HttpRequest)
    : HttpRequest -> list pydict -> exn -> Prop :=
| fails_now (request : HttpRequest) (e : exn) :
    service self (Single request) = Failed e ->
    fails_after self base request [] e
| fails_later (request : HttpRequest) (page : pydict) (cbs : list (option exn))
    (token : pyval) (pages : list pydict) (e : exn) :
    service self (Single request) = Returned (PDict page) cbs ->
    dict_get page "nextPageToken" = Some token ->
    fails_after self base (Project.with_token base token) pages e ->
    fails_after self base request (page :: pages) e.

(** A provider whose second page fails. *)
Definition breaking_service (first : list pyval) (e : exn) (request : Request)
    : executed :=
  match request with
  | Single r =>
      match page_token r with
      | None =>
          Returned (PDict [("items", PList first);
                           ("nextPageToken", PStr "page-2")]) []
      | Some _ => Failed e
      end
  | Batch rs => Failed e
  end.

(** A provider every page of which names a next one. *)
Definition endless_service (request : Request) : executed :=
  Returned (PDict [("nextPageToken", PStr "more")]) [].

(** A provider that reports a failure for every item of a batch. *)
Definition refusing_service (e : exn) (request : Request) : executed :=
  match request with
  | Single _ => Returned (PDict []) []
  | Batch rs => Returned PNone (map (fun _ => Some e) rs)
  end.

(** What the provider sends for a firewall. *)
Definition listed_firewall (name : string) : pyval :=
  PDict [("name", PStr name);
         ("network",
          PStr (demo_url ++ "/projects/my-project/global/networks/default"));
         ("allowed", PList [PDict [("IPProtocol", PStr "tcp")]]);
         ("sourceRanges", PList [PStr "0.0.0.0/0"])].

(** The instance [_list] builds from what the provider sends. *)
Definition from_listing (name status : string) : GceResource :=
  fst (from_json (listed_instance name status) (construct InstanceClass)).

(** The firewall [_list] builds from what the provider sends. *)
Definition firewall_from_listing (name : string) : GceResource :=
  fst (from_json (listed_firewall name) (construct FirewallClass)).

(** The attribute after [from_json]: the value under [key] when it is
    there and not empty, the earlier value otherwise. *)
Definition updated (d : pydict) (key : string) (earlier : pyval) : pyval :=
  match dict_get d key with
  | Some v => if truthy v then v else earlier
  | None => earlier
  end.

(** A firewall to which the caller passed an empty list of source ranges,
    and an instance to which the caller passed an empty zone name, both
    attached. *)
Definition empty_ranges_firewall : Firewall.t :=
  Firewall.set_gce_project (demo_project [])
    (Firewall.init (PStr "demo-fw") PNone (PStr "default") (PList []) PNone
                   PNone (PList [PDict [("IPProtocol", PStr "tcp")]])).

Definition empty_zone_instance : Instance.t :=
  Instance.set_gce_project (demo_project [])
    (Instance.init (PStr "demo-1") (PStr "") PNone PNone (PStr "debian-7")
                   (PStr GOOGLE_PROJECT) (PStr "n1-standard-1")
                   (PList [PDict [("network", PStr "default")]])
                   PNone PNone PNone).

(** * Properties *)

Arguments calls : simpl never.

Ltac run_se :=
  unfold bind, get, lift, when, modify, ret, raise, rbind in *.

(** One case split on an innermost scrutinee of [H]. *)
Ltac step H :=
  match type of H with
  | context [match ?x with _ => _ end] =>
      lazymatch x with
      | context [match _ with _ => _ end] => fail
      | _ => destruct x eqn:?; cbn in H
      end
  | (_, _) = (_, _) => inversion H; subst; clear H
  end.

(** ** The monad *)

Lemma bind_ok {S A B : Type} (m : SE S A) (k : A -> SE S B) (s s' : S) (a : A) :
  m s = (s', Ok a) -> bind m k s = k a s'.
Proof. intros E. unfold bind. rewrite E. reflexivity. Qed.

Lemma bind_lift {S A B : Type} (r : result A) (k : A -> SE S B) (s : S) :
  bind (lift r) k s = match r with Ok a => k a s | Raise e => (s, Raise e) end.
Proof. unfold bind, lift. destruct r; reflexivity. Qed.

(** ** Strings *)

Lemma append_assoc' (a b c : string) : (a ++ b) ++ c = a ++ (b ++ c).
Proof. induction a; cbn; congruence. Qed.

Lemma split_slash_nonempty (s : string) : split_slash s <> [].
Proof.
  induction s as [|c s IH]; cbn; [discriminate|].
  destruct (Ascii.eqb c slash); [discriminate|].
  destruct (split_slash s); [contradiction|discriminate].
Qed.

Lemma split_slash_app (a n : string) :
  split_slash (a ++ String slash n) = (split_slash a ++ split_slash n)%list.
Proof.
  induction a as [|c a IH]; [reflexivity|].
  cbn [append split_slash]. rewrite IH.
  destruct (Ascii.eqb c slash); [reflexivity|].
  pose proof (split_slash_nonempty a) as Ha.
  destruct (split_slash a) as [|h t]; [contradiction|reflexivity].
Qed.

Lemma split_slash_plain (n : string) : no_slash n = true -> split_slash n = [n].
Proof.
  induction n as [|c n IH]; [reflexivity|].
  cbn. destruct (Ascii.eqb c slash); cbn; [discriminate|].
  intros H. rewrite (IH H). reflexivity.
Qed.

Lemma last_item_app {A : Type} (l1 l2 : list A) :
  l2 <> [] -> last_item (l1 ++ l2) = last_item l2.
Proof.
  intros H. induction l1 as [|x l1 IH]; [reflexivity|].
  cbn [app last_item]. rewrite <- IH.
  destruct (l1 ++ l2)%list eqn:E; [|reflexivity].
  apply app_eq_nil in E. destruct E. contradiction.
Qed.

Lemma last_segment_of_path (a n : string) :
  no_slash n = true ->
  last_segment (PStr (a ++ String slash n)) = Ok (PStr n).
Proof.
  intros H. unfold last_segment.
  rewrite split_slash_app, last_item_app by apply split_slash_nonempty.
  rewrite (split_slash_plain n H). reflexivity.
Qed.

Lemma last_segment_total (s : string) :
  exists x, last_segment (PStr s) = Ok (PStr x).
Proof.
  unfold last_segment.
  pose proof (split_slash_nonempty s) as H.
  induction (split_slash s) as [|h t IH]; [contradiction|].
  destruct t as [|h' t]; [exists h; reflexivity|].
  cbn [last_item]. apply IH. discriminate.
Qed.

Lemma resource_url_last_segment (base : string) (project : pyval) (kind : string)
    (n u : string) :
  resource_url base project kind (PStr n) = Ok u ->
  no_slash n = true ->
  last_segment (PStr u) = Ok (PStr n).
Proof.
  unfold resource_url, rbind. destruct (py_str project) as [pr|e]; [|discriminate].
  cbn [py_str]. intros E Hn. inversion E; subst u; clear E.
  rewrite <- (last_segment_of_path
                (base ++ "/projects/" ++ pr ++ "/global/" ++ kind) n Hn).
  do 2 f_equal. rewrite !append_assoc'. reflexivity.
Qed.

Lemma json_string_plain (s : string) :
  json_chars s = Ok s -> json_string s = Ok (quoted s).
Proof. intros E. unfold json_string. rewrite E. reflexivity. Qed.

(** ** Traces *)

Lemma calls_app (a b : list event) : calls (a ++ b) = calls a + calls b.
Proof.
  unfold calls. rewrite filter_app, length_app. reflexivity.
Qed.

Lemma calls_executed (l : list HttpRequest) :
  calls (map (fun r => Executed (Single r)) l) = length l.
Proof.
  unfold calls. induction l as [|r l IH]; cbn; [reflexivity|].
  rewrite IH. reflexivity.
Qed.

Lemma batch_callbacks_log_only (cbs : list (option exn)) (t : list event) :
  snd (for_each cbs Project._batch_response t) = Ok tt /\
  calls (fst (for_each cbs Project._batch_response t)) = calls t.
Proof.
  revert t. induction cbs as [|cb cbs IH]; intros t; [split; reflexivity|].
  cbn [for_each]. unfold bind.
  destruct cb as [e|]; cbn.
  - destruct (IH (t ++ [LoggedError e])%list) as [A B].
    split; [exact A|]. rewrite B, calls_app. unfold calls; cbn. lia.
  - apply IH.
Qed.

(** ** The [json] property of Image *)

(** C2: for every Image the [json] property evaluates to [None]; the
    mapping its body builds (the name, and each of description, sourceType,
    preferredKernel and rawDisk when set) is never returned. *)
Theorem image_json_returns_none (img : Image.t) :
  Image.json img = Ok PNone /\
  dict_get (Image.json_image img) "name" = Some (Image.name img) /\
  dict_get (Image.json_image img) "description"
  = when_set (Image.description img) /\
  dict_get (Image.json_image img) "sourceType"
  = when_set (Image.source_type img) /\
  dict_get (Image.json_image img) "preferredKernel"
  = when_set (Image.preferred_kernel img) /\
  dict_get (Image.json_image img) "rawDisk" = when_set (Image.raw_disk img).
Proof.
  split; [reflexivity|].
  unfold Image.json_image, when_set.
  destruct (truthy (Image.description img)), (truthy (Image.source_type img)),
    (truthy (Image.preferred_kernel img)), (truthy (Image.raw_disk img));
    repeat split; reflexivity.
Qed.

(** ** _run_request *)

Lemma run_request_single (self : GceProject) (r : HttpRequest) (v : pyval)
    (cbs : list (option exn)) (t : list event) :
  service self (Single r) = Returned v cbs ->
  Project._run_request self (Single r) t
  = ((t ++ [Executed (Single r)])%list, Ok v).
Proof.
  intros E.
  unfold Project._run_request, Project.execute, try_except, bind, emit, modify, ret.
  rewrite E. reflexivity.
Qed.

(** C5: at [_run_request] an HTTP error response becomes the provider-call
    error with message 'HttpError: <status> <reason>', a transport error
    becomes the provider-call error with a fixed text, a token refresh
    failure becomes the token error with a fixed text that carries nothing
    of the failure; any other exception passes unchanged, a result is
    returned as it is, and the provider is called exactly once. *)
Theorem run_request_error_translation (self : GceProject) (request : Request)
    (t : list event) :
  (forall st reason,
      service self request = Failed (HttpError st reason) ->
      Project._run_request self request t
      = ((t ++ [Executed request; LoggedError (HttpError st reason)])%list,
         Raise (GceError ("HttpError: " ++ decimal st ++ " " ++ reason)))) /\
  (service self request = Failed HttpLib2Error ->
   Project._run_request self request t
   = ((t ++ [Executed request; LoggedError HttpLib2Error])%list,
      Raise (GceError "Transport Error occurred"))) /\
  (service self request = Failed AccessTokenRefreshError ->
   Project._run_request self request t
   = ((t ++ [Executed request; LoggedError AccessTokenRefreshError])%list,
      Raise (GceTokenError "Access Token refresh error"))) /\
  (forall e,
      service self request = Failed e ->
      (forall st reason, e <> HttpError st reason) ->
      e <> HttpLib2Error -> e <> AccessTokenRefreshError ->
      Project._run_request self request t
      = ((t ++ [Executed request])%list, Raise e)) /\
  (forall r v cbs,
      request = Single r ->
      service self request = Returned v cbs ->
      Project._run_request self request t
      = ((t ++ [Executed request])%list, Ok v)) /\
  calls (fst (Project._run_request self request t)) = S (calls t).
Proof.
  unfold Project._run_request, Project.execute, try_except, bind, emit, modify,
    raise, lift, ret.
  repeat split.
  - intros st reason E. rewrite E. cbn. rewrite <- app_assoc. reflexivity.
  - intros E. rewrite E. cbn. rewrite <- app_assoc. reflexivity.
  - intros E. rewrite E. cbn. rewrite <- app_assoc. reflexivity.
  - intros e E H1 H2 H3. rewrite E.
    destruct e; try reflexivity.
    + exfalso. eapply H1. reflexivity.
    + exfalso. apply H2. reflexivity.
    + exfalso. apply H3. reflexivity.
  - intros r v cbs -> E. rewrite E. reflexivity.
  - destruct (service self request) as [v cbs|e].
    + destruct request as [r|rs]; cbn.
      * rewrite calls_app. unfold calls; cbn. lia.
      * destruct (batch_callbacks_log_only cbs (t ++ [Executed (Batch rs)])%list)
          as [A B].
        destruct (for_each cbs Project._batch_response
                    (t ++ [Executed (Batch rs)])%list) as [t' o].
        cbn in A, B. subst o. cbn. rewrite B, calls_app. unfold calls; cbn. lia.
    + destruct e; cbn; rewrite ?calls_app; unfold calls; cbn; lia.
Qed.

Lemma run_request_error_translation_witness :
  Project._run_request (failing_project (HttpError 404 "Not Found"))
    (Single (mkRequest instances list_call [] None)) []
  = ([Executed (Single (mkRequest instances list_call [] None));
      LoggedError (HttpError 404 "Not Found")],
     Raise (GceError "HttpError: 404 Not Found")).
Proof.
  exact (proj1 (run_request_error_translation
                  (failing_project (HttpError 404 "Not Found"))
                  (Single (mkRequest instances list_call [] None)) [])
               404%Z "Not Found" eq_refl).
Defined.

(** ** run_gce_request *)

(** C4: [run_gce_request] calls the method with the keyword arguments; on
    the provider-call error it sets status 500 with the prefix followed by
    the error's message and returns nothing, on the token error it sets
    status 401 with 'Unauthorized.' and returns nothing, otherwise it
    returns the method's response. *)
Theorem run_gce_request_outcomes (m : gce_method) (msg : string) (args : kwargs)
    (w : world) :
  (forall t r,
      m args (trace w) = (t, Ok r) ->
      GceAppEngine.run_gce_request m msg args w
      = (mkWorld t (handler_response w) (self_response w), Ok r)) /\
  (forall t message,
      m args (trace w) = (t, Raise (GceError message)) ->
      GceAppEngine.run_gce_request m msg args w
      = (mkWorld (t ++ [LoggedMessage (msg ++ message)])%list
                 (set_status 500 (msg ++ message) (handler_response w))
                 (self_response w),
         Ok RNone)) /\
  (forall t message,
      m args (trace w) = (t, Raise (GceTokenError message)) ->
      GceAppEngine.run_gce_request m msg args w
      = (mkWorld t (set_status 401 "Unauthorized." (handler_response w))
                 (self_response w),
         Ok RNone)) /\
  (forall t e,
      m args (trace w) = (t, Raise e) ->
      (forall message, e <> GceError message) ->
      (forall message, e <> GceTokenError message) ->
      GceAppEngine.run_gce_request m msg args w
      = (mkWorld t (handler_response w) (self_response w), Raise e)).
Proof.
  unfold GceAppEngine.run_gce_request, try_except, call.
  repeat split.
  - intros t r E. rewrite E. reflexivity.
  - intros t message E. rewrite E. reflexivity.
  - intros t message E. rewrite E. reflexivity.
  - intros t e E H1 H2. rewrite E.
    destruct e; try reflexivity.
    + exfalso. eapply H1. reflexivity.
    + exfalso. eapply H2. reflexivity.
Qed.

Lemma run_gce_request_outcomes_witness :
  GceAppEngine.run_gce_request
    (list_instances_method 3 (failing_project (HttpError 403 "Forbidden")))
    "Error listing resources: " []
    (mkWorld [] no_response None)
  = (mkWorld
       [Executed (Single (mkRequest instances list_call
                            [("project", PStr "my-project");
                             ("zone", PStr "us-central1-a")] None));
        LoggedError (HttpError 403 "Forbidden");
        LoggedMessage "Error listing resources: HttpError: 403 Forbidden"]
       (mkResponse (500%Z, "Error listing resources: HttpError: 403 Forbidden")
                   [] "")
       None,
     Ok RNone).
Proof.
  exact (proj1 (proj2 (run_gce_request_outcomes
                         (list_instances_method 3
                            (failing_project (HttpError 403 "Forbidden")))
                         "Error listing resources: " []
                         (mkWorld [] no_response None)))
               _ "HttpError: 403 Forbidden" eq_refl).
Defined.

(** ** set_defaults *)

Lemma kept_refl (kv : string * pyval) : kept kv kv.
Proof. split; [reflexivity | left; reflexivity]. Qed.

Lemma kept_set_stays (l l' : list (string * pyval)) :
  Forall2 kept l l' ->
  forall k v, In (k, v) l -> truthy v = true -> In (k, v) l'.
Proof.
  induction 1 as [|[k0 v0] [k1 v1] l l' [Hk Hv] _ IH]; intros k v Hin Ht;
    [contradiction|].
  cbn in Hk, Hv. destruct Hin as [E|Hin].
  - inversion E; subst. destruct Hv as [->|Hf]; [left; reflexivity|congruence].
  - right. eapply IH; eauto.
Qed.

Lemma kept_only_unset_assigned (l l' : list (string * pyval)) :
  Forall2 kept l l' ->
  forall k v', In (k, v') l' ->
    In (k, v') l \/ exists v, In (k, v) l /\ truthy v = false.
Proof.
  induction 1 as [|[k0 v0] [k1 v1] l l' [Hk Hv] _ IH]; intros k v' Hin;
    [contradiction|].
  cbn in Hk, Hv. destruct Hin as [E|Hin].
  - inversion E; subst. destruct Hv as [->|Hf].
    + left. left. reflexivity.
    + right. exists v0. split; [left; reflexivity|exact Hf].
  - destruct (IH _ _ Hin) as [A|[v [A B]]].
    + left. right. exact A.
    + right. exists v. split; [right; exact A|exact B].
Qed.

Ltac unset :=
  match goal with
  | H : truthy ?v = false |- truthy ?v = false => exact H
  | H : negb (truthy ?v) = true |- truthy ?v = false =>
      apply negb_true_iff; exact H
  | H : negb (truthy ?v) && _ = true |- truthy ?v = false =>
      apply andb_prop in H; destruct H as [H _]; apply negb_true_iff; exact H
  end.

Ltac kept_fields :=
  repeat (apply Forall2_cons || apply Forall2_nil);
  try (split; [reflexivity | first [left; reflexivity | right; unset]]).

Ltac frame_by_cases E :=
  cbn in E; repeat step E; cbn in *; kept_fields.

Section Frame.
#[local] Opaque compute_setting resource_url py_getitem truthy.

Lemma zone_defaults_kept (z z' : Zone.t) (o : result unit) :
  Zone.set_defaults z = (z', o) ->
  Forall2 kept (fields (AZone z)) (fields (AZone z')).
Proof.
  destruct z as [n gp]. unfold Zone.set_defaults, attached. run_se.
  intros E. frame_by_cases E.
Qed.

Lemma machine_type_defaults_kept (m m' : MachineType.t) (o : result unit) :
  MachineType.set_defaults m = (m', o) ->
  Forall2 kept (fields (AMachineType m)) (fields (AMachineType m')).
Proof.
  destruct m as [n gp]. unfold MachineType.set_defaults, attached. run_se.
  intros E. frame_by_cases E.
Qed.

Lemma network_defaults_kept (n n' : Network.t) (o : result unit) :
  Network.set_defaults n = (n', o) ->
  Forall2 kept (fields (ANetwork n)) (fields (ANetwork n')).
Proof.
  destruct n as [nm gp]. unfold Network.set_defaults, attached. run_se.
  intros E. frame_by_cases E.
Qed.

Lemma image_defaults_kept (i i' : Image.t) (o : result unit) :
  Image.set_defaults i = (i', o) ->
  Forall2 kept (fields (AnImage i)) (fields (AnImage i')).
Proof.
  destruct i. unfold Image.set_defaults, attached. run_se.
  intros E. frame_by_cases E.
Qed.

Lemma firewall_defaults_kept (f f' : Firewall.t) (o : result unit) :
  Firewall.set_defaults f = (f', o) ->
  Forall2 kept (fields (AFirewall f)) (fields (AFirewall f')).
Proof.
  destruct f as [n d [[nn ngp]|raw] sr st tt a gp];
    unfold Firewall.set_defaults, Firewall.on_network, Firewall.network_name,
      Network.set_defaults, attached; run_se;
    intros E; frame_by_cases E.
Qed.

Lemma instance_defaults_kept (i i' : Instance.t) (o : result unit) :
  Instance.set_defaults i = (i', o) ->
  Forall2 kept (fields (AnInstance i)) (fields (AnInstance i')).
Proof.
  destruct i as [n [zn zgp] d tg [inm ipr ide ist ipk ird igp] [mn mgp]
                   ni dk md sa k s sm gp].
  unfold Instance.set_defaults, Instance.on_zone, Instance.on_image,
    Instance.on_machine_type, Zone.set_defaults, Image.set_defaults,
    MachineType.set_defaults, Network.url, attached; run_se.
  intros E. frame_by_cases E.
  all: destruct k, s, sm; cbn; kept_fields.
Qed.

Lemma defaults_kept (r r' : GceResource) (o : result unit) :
  set_defaults r = (r', o) -> Forall2 kept (fields r) (fields r').
Proof.
  unfold set_defaults, as_resource. intros E.
  destruct r as [i|f|i|m|z|n].
  - destruct (Instance.set_defaults i) as [x o'] eqn:Ex. inversion E; subst.
    eapply instance_defaults_kept; eauto.
  - destruct (Firewall.set_defaults f) as [x o'] eqn:Ex. inversion E; subst.
    eapply firewall_defaults_kept; eauto.
  - destruct (Image.set_defaults i) as [x o'] eqn:Ex. inversion E; subst.
    eapply image_defaults_kept; eauto.
  - destruct (MachineType.set_defaults m) as [x o'] eqn:Ex. inversion E; subst.
    eapply machine_type_defaults_kept; eauto.
  - destruct (Zone.set_defaults z) as [x o'] eqn:Ex. inversion E; subst.
    eapply zone_defaults_kept; eauto.
  - destruct (Network.set_defaults n) as [x o'] eqn:Ex. inversion E; subst.
    eapply network_defaults_kept; eauto.
Qed.
End Frame.

(** C7, as amended: for a resource of any of the six classes and any
    configuration, [set_defaults] leaves every attribute that holds a
    non-empty value as it was, whether it returns or raises, and an
    attribute it assigned was empty before; an attribute is unset for it
    when its value is empty, also when the caller passed that value. *)
Theorem set_defaults_keeps_set_fields (r r' : GceResource) (o : result unit) :
  set_defaults r = (r', o) ->
  (forall k v, In (k, v) (fields r) -> truthy v = true -> In (k, v) (fields r')) /\
  (forall k v',
      In (k, v') (fields r') ->
      In (k, v') (fields r) \/
      exists v, In (k, v) (fields r) /\ truthy v = false).
Proof.
  intros E. pose proof (defaults_kept r r' o E) as K. split.
  - apply kept_set_stays. exact K.
  - apply kept_only_unset_assigned. exact K.
Qed.

Lemma set_defaults_keeps_set_fields_witness :
  In ("name", PStr "demo-1")
     (fields (fst (set_defaults (AnInstance bare_instance)))) /\
  In ("zone.name", PStr "us-central1-a")
     (fields (fst (set_defaults (AnInstance bare_instance)))) /\
  snd (set_defaults (AnInstance bare_instance)) = Ok tt.
Proof.
  split.
  - apply (proj1 (set_defaults_keeps_set_fields
                    (AnInstance bare_instance)
                    (fst (set_defaults (AnInstance bare_instance)))
                    (snd (set_defaults (AnInstance bare_instance)))
                    (surjective_pairing _))
                 "name" (PStr "demo-1")).
    + left. reflexivity.
    + reflexivity.
  - split; [vm_compute; tauto | reflexivity].
Defined.

(** C7 fails as stated: the empty list of source ranges that the caller
    passed to a firewall, and the empty zone name passed to an instance,
    are overwritten from the configuration. *)
Lemma set_defaults_overwrites_empty_values :
  (In ("source_ranges", PList []) (fields (AFirewall empty_ranges_firewall)) /\
   snd (set_defaults (AFirewall empty_ranges_firewall)) = Ok tt /\
   In ("source_ranges", PList [PStr "0.0.0.0/0"])
      (fields (fst (set_defaults (AFirewall empty_ranges_firewall)))) /\
   ~ In ("source_ranges", PList [])
        (fields (fst (set_defaults (AFirewall empty_ranges_firewall))))) /\
  (In ("zone.name", PStr "") (fields (AnInstance empty_zone_instance)) /\
   snd (set_defaults (AnInstance empty_zone_instance)) = Ok tt /\
   In ("zone.name", PStr "us-central1-a")
      (fields (fst (set_defaults (AnInstance empty_zone_instance)))) /\
   ~ In ("zone.name", PStr "")
        (fields (fst (set_defaults (AnInstance empty_zone_instance))))).
Proof.
  split; (split; [vm_compute; tauto|]); (split; [vm_compute; reflexivity|]);
    (split; [vm_compute; tauto|]).
  - intros H. vm_compute in H.
    repeat (destruct H as [H|H]; [discriminate H|]). exact H.
  - intros H. vm_compute in H.
    repeat (destruct H as [H|H]; [discriminate H|]). exact H.
Qed.

(** ** _delete_request *)

Section DeleteRequest.
#[local] Opaque compute_setting resource_url py_getitem truthy.

Ltac delete_case E setter :=
  unfold bind at 1 in E;
  destruct setter as [x [[]|e]] eqn:Ex; [|discriminate];
  destruct x; unfold attached in E; run_se; cbn in E;
  repeat step E; cbn; auto.

Lemma delete_request_params (self : GceProject) (r r' : GceResource)
    (request : HttpRequest) :
  Project._delete_request self r = (r', Ok request) ->
  req_verb request = delete_call /\
  class_of r' = class_of r /\
  req_params request
  = match r' with
    | AnInstance i =>
        [("project", project_id self);
         ("instance", Instance.name i);
         ("zone", Zone.name (Instance.zone i))]
    | AnImage i => [("project", project_id self); ("image", Image.name i)]
    | AFirewall f =>
        [("project", project_id self); ("firewall", Firewall.name f)]
    | AMachineType _ | AZone _ | ANetwork _ => [("project", project_id self)]
    end.
Proof.
  intros E.
  unfold Project._delete_request, set_defaults, as_resource in E.
  destruct r as [i|f|i|m|z|n].
  - delete_case E (Instance.set_defaults i).
  - delete_case E (Firewall.set_defaults f).
  - delete_case E (Image.set_defaults i).
  - delete_case E (MachineType.set_defaults m).
  - delete_case E (Zone.set_defaults z).
  - delete_case E (Network.set_defaults n).
Qed.
End DeleteRequest.

(** C9: the request of [_delete_request] names the resource ('instance',
    'image', 'firewall') only for an Instance, an Image or a Firewall; for
    a MachineType, a Zone or a Network its parameters are the project
    alone, and such a request is really built. *)
Theorem delete_request_name_parameter (self : GceProject) :
  (forall r r' request,
      Project._delete_request self r = (r', Ok request) ->
      req_verb request = delete_call /\
      class_of r' = class_of r /\
      req_params request
      = match r' with
        | AnInstance i =>
            [("project", project_id self);
             ("instance", Instance.name i);
             ("zone", Zone.name (Instance.zone i))]
        | AnImage i => [("project", project_id self); ("image", Image.name i)]
        | AFirewall f =>
            [("project", project_id self); ("firewall", Firewall.name f)]
        | AMachineType _ | AZone _ | ANetwork _ => [("project", project_id self)]
        end) /\
  (forall n p,
      truthy n = true ->
      Project._delete_request self (AMachineType (MachineType.mk n (Some p)))
      = (AMachineType (MachineType.mk n (Some p)),
         Ok (mkRequest machineTypes delete_call [("project", project_id self)] None))
      /\
      Project._delete_request self (AZone (Zone.mk n (Some p)))
      = (AZone (Zone.mk n (Some p)),
         Ok (mkRequest zones delete_call [("project", project_id self)] None))
      /\
      Project._delete_request self (ANetwork (Network.mk n (Some p)))
      = (ANetwork (Network.mk n (Some p)),
         Ok (mkRequest networks delete_call [("project", project_id self)] None))).
Proof.
  split.
  - apply delete_request_params.
  - intros n p Hn.
    unfold Project._delete_request, set_defaults, as_resource,
      MachineType.set_defaults, Zone.set_defaults, Network.set_defaults.
    run_se. cbn. rewrite Hn. cbn. auto.
Qed.

Lemma delete_request_name_parameter_witness :
  req_params
    (mkRequest zones delete_call [("project", PStr "my-project")] None)
  = [("project", PStr "my-project")] /\
  Project._delete_request (demo_project [])
    (AZone (Zone.mk (PStr "us-central1-a") (Some (demo_project []))))
  = (AZone (Zone.mk (PStr "us-central1-a") (Some (demo_project []))),
     Ok (mkRequest zones delete_call [("project", PStr "my-project")] None)).
Proof.
  split; [reflexivity|].
  exact (proj1 (proj2 (proj2 (delete_request_name_parameter (demo_project []))
                         (PStr "us-central1-a") (demo_project []) eq_refl))).
Defined.

(** ** What the methods return *)

Lemma then_none {A : Type} (m : M A) (t t' : list event) (v : response) :
  bind m (fun _ => ret RNone) t = (t', Ok v) -> v = RNone.
Proof.
  unfold bind, ret.
  destruct (m t) as [t1 [a|e]]; intros E; inversion E; reflexivity.
Qed.

Lemma insert_returns_none self r t t' v :
  Project.insert self r t = (t', Ok v) -> v = RNone.
Proof.
  unfold Project.insert. intros E.
  unfold bind at 1 in E.
  destruct (Project.on_resource _ _ t) as [t1 [b|e]]; [|discriminate].
  eapply then_none. exact E.
Qed.

Lemma bulk_insert_returns_none self rs t t' v :
  Project.bulk_insert self rs t = (t', Ok v) -> v = RNone.
Proof.
  unfold Project.bulk_insert. intros E.
  unfold bind at 1 in E.
  destruct (Project.add_all _ _ _ _ t) as [t1 [b|e]]; [|discriminate].
  eapply then_none. exact E.
Qed.

Lemma bulk_delete_returns_none self rs t t' v :
  Project.bulk_delete self rs t = (t', Ok v) -> v = RNone.
Proof.
  unfold Project.bulk_delete. intros E.
  unfold bind at 1 in E.
  destruct (Project.add_all _ _ _ _ t) as [t1 [b|e]]; [|discriminate].
  eapply then_none. exact E.
Qed.

Lemma list_returns_resources fuel self c zone args t t' v :
  Project._list fuel self c zone args t = (t', Ok v) ->
  exists l, v = RResources l.
Proof.
  unfold Project._list. run_se. intros E.
  destruct (Project._list_request _ _ _ _) as [rq|e]; [|discriminate].
  destruct (Project.list_pages _ _ _ _ _ _ _ _ t) as [t1 [l|e]]; [|discriminate].
  inversion E. eauto.
Qed.

Lemma run_gce_request_of_nothing m msg args w w' v :
  returns_nothing m ->
  GceAppEngine.run_gce_request m msg args w = (w', Ok v) -> v = RNone.
Proof.
  intros Hm. unfold GceAppEngine.run_gce_request, try_except, call.
  destruct (m args (trace w)) as [t [r|e]] eqn:E.
  - intros X. inversion X; subst. eapply Hm; eauto.
  - destruct e; cbn; intros X; inversion X; reflexivity.
Qed.

Lemma insert_method_nothing p : returns_nothing (insert_method p).
Proof.
  intros args t t' v. unfold insert_method.
  destruct args as [|[k [a|[|r [|]]]] [|]]; try discriminate.
  destruct (String.eqb k "resource"); [apply insert_returns_none|discriminate].
Qed.

Lemma bulk_insert_method_nothing p : returns_nothing (bulk_insert_method p).
Proof.
  intros args t t' v. unfold bulk_insert_method.
  destruct args as [|[k [a|l]] [|]]; try discriminate.
  destruct (String.eqb k "resources");
    [apply bulk_insert_returns_none|discriminate].
Qed.

Lemma bulk_delete_method_nothing p : returns_nothing (bulk_delete_method p).
Proof.
  intros args t t' v. unfold bulk_delete_method.
  destruct args as [|[k [a|l]] [|]]; try discriminate.
  destruct (String.eqb k "resources");
    [apply bulk_delete_returns_none|discriminate].
Qed.

(** C10: [insert], [bulk_insert] and [bulk_delete] return [None] when they
    succeed, so [run_gce_request] around them returns [None] on success as
    it does on the two errors; a listing that succeeds returns a list,
    which is not [None]. *)
Theorem mutators_return_none (self : GceProject) :
  (forall r t t' v, Project.insert self r t = (t', Ok v) -> v = RNone) /\
  (forall rs t t' v, Project.bulk_insert self rs t = (t', Ok v) -> v = RNone) /\
  (forall rs t t' v, Project.bulk_delete self rs t = (t', Ok v) -> v = RNone) /\
  (forall m msg args w w' v,
      m = insert_method self \/ m = bulk_insert_method self \/
      m = bulk_delete_method self ->
      GceAppEngine.run_gce_request m msg args w = (w', Ok v) -> v = RNone) /\
  (forall m msg args w t message,
      m args (trace w) = (t, Raise (GceError message)) \/
      m args (trace w) = (t, Raise (GceTokenError message)) ->
      snd (GceAppEngine.run_gce_request m msg args w) = Ok RNone) /\
  (forall fuel c zone args t t' v,
      Project._list fuel self c zone args t = (t', Ok v) ->
      exists l, v = RResources l /\ v <> RNone).
Proof.
  repeat split.
  - apply insert_returns_none.
  - apply bulk_insert_returns_none.
  - apply bulk_delete_returns_none.
  - intros m msg args w w' v [ -> | [ -> | -> ] ];
      apply run_gce_request_of_nothing;
      auto using insert_method_nothing, bulk_insert_method_nothing,
        bulk_delete_method_nothing.
  - intros m msg args w t message [E|E];
      unfold GceAppEngine.run_gce_request, try_except, call; rewrite E;
      reflexivity.
  - intros fuel c zone args t t' v E.
    destruct (list_returns_resources _ _ _ _ _ _ _ _ E) as [l ->].
    exists l. split; [reflexivity|discriminate].
Qed.

Lemma mutators_return_none_witness :
  snd (Project.insert (demo_project []) (AnInstance bare_instance) [])
  = Ok RNone /\
  snd (GceAppEngine.run_gce_request
         (insert_method (failing_project HttpLib2Error)) "Error: "
         [("resource", Resources [AnInstance bare_instance])]
         (mkWorld [] no_response None))
  = Ok RNone.
Proof.
  split.
  - destruct (Project.insert (demo_project []) (AnInstance bare_instance) [])
      as [t' [v|e]] eqn:E.
    + cbn. f_equal.
      exact (proj1 (mutators_return_none (demo_project [])) _ _ _ _ E).
    + vm_compute in E. discriminate.
  - apply (proj1 (proj2 (proj2 (proj2 (proj2
             (mutators_return_none (demo_project []))))))
             (insert_method (failing_project HttpLib2Error)) "Error: "
             [("resource", Resources [AnInstance bare_instance])]
             (mkWorld [] no_response None)
             [Executed (Single (mkRequest instances insert_call
                  [("project", PStr "my-project");
                   ("body", PDict
                     [("name", PStr "demo-1");
                      ("image", PStr (demo_url
                         ++ "/projects/google/global/images/debian-7"));
                      ("machineType", PStr (demo_url
                         ++ "/projects/my-project/global/machineTypes/n1-standard-1"));
                      ("networkInterfaces", PList [PDict
                         [("network", PStr (demo_url
                             ++ "/projects/my-project/global/networks/default"));
                          ("accessConfigs",
                           PList [PDict [("type", PStr "ONE_TO_ONE_NAT")]])]])]);
                   ("zone", PStr "us-central1-a")] None));
              LoggedError HttpLib2Error]
             "Transport Error occurred").
    left. vm_compute. reflexivity.
Defined.

(** ** list_demo_resources *)

Lemma header_set (key value : string) (r : Response) :
  header key (set_header key value r) = Some value.
Proof.
  unfold header, set_header. cbn [headers].
  rewrite filter_app. cbn [filter fst].
  rewrite String.eqb_refl.
  induction (headers r) as [|[k v] l IH]; [reflexivity|].
  cbn [filter fst].
  destruct (String.eqb (lowercase k) (lowercase key)) eqn:E; cbn [negb];
    [exact IH|].
  cbn [filter fst]. rewrite E. exact IH.
Qed.

(** C3: when the lister returns the resources named demoA-1 and demoB-2,
    each with a status that is a plain string, [list_demo_resources] with
    the prefix demo writes the body
    {"resources": {"demoA-1": {"status": "<status>"},
                   "demoB-2": {"status": "<status>"}}}
    to the response and sets Content-Type to application/json. *)
Theorem list_demo_resources_body (lister : gce_method) (w : world)
    (t : list event) (ra rb : GceResource) (sa sb : string) :
  lister [("filter", Value (PStr "name eq ^demo.*"));
          ("maxResults", Value (PInt MAX_RESULTS))] (trace w)
  = (t, Ok (RResources [ra; rb])) ->
  name_of ra = PStr "demoA-1" -> status_of ra = Ok (PStr sa) ->
  name_of rb = PStr "demoB-2" -> status_of rb = Ok (PStr sb) ->
  json_chars sa = Ok sa -> json_chars sb = Ok sb ->
  exists w',
    GceAppEngine.list_demo_resources (PStr "demo") lister w = (w', Ok tt) /\
    trace w' = t /\
    header "Content-Type" (handler_response w') = Some "application/json" /\
    out (handler_response w') = out (handler_response w) ++ demo_listing sa sb.
Proof.
  intros El Na Sa Nb Sb Pa Pb.
  unfold GceAppEngine.list_demo_resources, GceAppEngine.run_gce_request,
    try_except, call, bind, lift, on_response, modify.
  cbn [py_str rbind append]. rewrite El. cbn [response_iter].
  unfold GceAppEngine.status_dict, GceAppEngine.add_status.
  rewrite Sa, Sb, Na, Nb. cbn [rbind dict_set String.eqb Ascii.eqb Bool.eqb].
  cbn [json_dumps rbind].
  rewrite (json_string_plain sa Pa), (json_string_plain sb Pb).
  cbn [rbind trace handler_response].
  eexists. split; [reflexivity|]. cbn [trace handler_response].
  split; [reflexivity|]. split; [apply header_set|].
  cbn [out write set_header]. f_equal.
  unfold demo_listing, quoted. cbn [append].
  repeat (rewrite !append_assoc'; cbn [append]).
  reflexivity.
Qed.

Lemma list_demo_resources_body_witness :
  exists w',
    GceAppEngine.list_demo_resources (PStr "demo")
      (list_instances_method 3
         (demo_project [listed_instance "demoA-1" "RUNNING";
                        listed_instance "demoB-2" "STAGING"]))
      (mkWorld [] no_response None) = (w', Ok tt) /\
    trace w' = [Executed (Single (mkRequest instances list_call
                   [("project", PStr "my-project");
                    ("filter", PStr "name eq ^demo.*");
                    ("maxResults", PInt 100);
                    ("zone", PStr "us-central1-a")] None))] /\
    header "Content-Type" (handler_response w') = Some "application/json" /\
    out (handler_response w') = "" ++ demo_listing "RUNNING" "STAGING".
Proof.
  eapply (list_demo_resources_body
            (list_instances_method 3
               (demo_project [listed_instance "demoA-1" "RUNNING";
                              listed_instance "demoB-2" "STAGING"]))
            (mkWorld [] no_response None)); vm_compute; reflexivity.
Defined.

(** ** delete_demo_resources *)

Lemma run_gce_request_frame (m : gce_method) (msg : string) (args : kwargs)
    (w : world) :
  let w' := fst (GceAppEngine.run_gce_request m msg args w) in
  out (handler_response w') = out (handler_response w) /\
  headers (handler_response w') = headers (handler_response w) /\
  self_response w' = self_response w.
Proof.
  cbv zeta. unfold GceAppEngine.run_gce_request, try_except, call.
  destruct (m args (trace w)) as [t [r|e]]; [cbn; auto|].
  destruct e; cbn; auto.
Qed.

Lemma delete_demo_resources_never_writes (gce_project : GceProject)
    (demo_name : pyval) (lister : gce_method) (w : world) :
  let w' := fst (GceAppEngine.delete_demo_resources gce_project demo_name
                   lister w) in
  out (handler_response w') = out (handler_response w) /\
  headers (handler_response w') = headers (handler_response w) /\
  self_response w' = self_response w.
Proof.
  cbv zeta. unfold GceAppEngine.delete_demo_resources.
  rewrite bind_lift.
  destruct (n <- py_str demo_name ;; Ok ("name eq ^" ++ n ++ "-.*"))%res
    as [f|e]; [|cbn; auto].
  unfold bind.
  pose proof (run_gce_request_frame lister "Error listing resources: "
                [("filter", Value (PStr f));
                 ("maxResults", Value (PInt MAX_RESULTS))] w) as K.
  cbv zeta in K.
  destruct (GceAppEngine.run_gce_request lister "Error listing resources: " _ w)
    as [w1 [resources|e]]; cbn [fst] in K; [|exact K].
  unfold when. destruct (response_truthy resources); [|exact K].
  match goal with
  | |- context [GceAppEngine.run_gce_request ?m ?msg ?args w1] =>
      pose proof (run_gce_request_frame m msg args w1) as K2;
      pose proof (run_gce_request_of_nothing m msg args w1) as N;
      destruct (GceAppEngine.run_gce_request m msg args w1)
        as [w2 [response|e]]
  end; cbv zeta in K2; cbn [fst] in K2.
  - rewrite (N w2 response (bulk_delete_method_nothing _) eq_refl).
    cbn. destruct K as (A & B & C), K2 as (A2 & B2 & C2).
    repeat split; congruence.
  - cbn. destruct K as (A & B & C), K2 as (A2 & B2 & C2).
    repeat split; congruence.
Qed.

(** C8, on the code: the lister returns the instance demo-1, the bulk
    delete is issued and succeeds, and neither response receives the
    confirmation 'stopping cluster' nor a Content-Type. *)
Theorem delete_demo_resources_no_confirmation :
  GceAppEngine.delete_demo_resources
    (demo_project [listed_instance "demo-1" "RUNNING"]) (PStr "demo")
    (list_instances_method 3 (demo_project [listed_instance "demo-1" "RUNNING"]))
    (mkWorld [] no_response (Some no_response))
  = (mkWorld
       [Executed (Single (mkRequest instances list_call
                            [("project", PStr "my-project");
                             ("filter", PStr "name eq ^demo-.*");
                             ("maxResults", PInt 100);
                             ("zone", PStr "us-central1-a")] None));
        Executed (Batch [mkRequest instances delete_call
                           [("project", PStr "my-project");
                            ("instance", PStr "demo-1");
                            ("zone", PStr "us-central1-a")] None])]
       no_response (Some no_response),
     Ok tt).
Proof. vm_compute. reflexivity. Qed.

(** ** _list *)

Lemma run_request_single_guarded (self : GceProject) (r : HttpRequest) (v : pyval)
    (cbs : list (option exn)) (t : list event) :
  service self (Single r) = Returned v cbs ->
  try_except (Project._run_request self (Single r)) Project.reraise t
  = ((t ++ [Executed (Single r)])%list, Ok v).
Proof.
  intros E. unfold try_except. rewrite (run_request_single _ _ _ _ _ E).
  reflexivity.
Qed.

Lemma list_request_needs_collection self resource zone args base :
  Project._list_request self resource zone args = Ok base ->
  exists c, service_resource resource = Ok c.
Proof.
  unfold Project._list_request, rbind.
  destruct (service_resource resource) as [c|e]; [eauto|discriminate].
Qed.

Lemma served_requests (self : GceProject) (base request : HttpRequest)
    (pages : list pydict) :
  serves self base request pages ->
  length (page_requests base request pages) = length pages.
Proof.
  induction 1 as [request page cbs Hx Hlast
                 |request page cbs token pages Hx Hnext Hs IH];
    cbn [page_requests length].
  - rewrite Hlast. reflexivity.
  - rewrite Hnext, IH. reflexivity.
Qed.

Lemma list_pages_collects (self : GceProject) (c : resource_class)
    (resource : GceResource) (zone : pyval) (args : pydict) (base : HttpRequest) :
  Project._list_request self resource zone args = Ok base ->
  forall request pages,
    serves self base request pages ->
    forall fuel acc t,
      length pages <= fuel ->
      snd (Project.list_pages fuel self c resource zone args request acc t)
      = (rs <- collect c pages ;; Ok (acc ++ rs)%list)%res /\
      (forall rs,
          collect c pages = Ok rs ->
          fst (Project.list_pages fuel self c resource zone args request acc t)
          = (t ++ map (fun r => Executed (Single r))
                      (page_requests base request pages))%list).
Proof.
  intros Hbase request pages Hs.
  destruct (list_request_needs_collection _ _ _ _ _ Hbase) as [col Hcol].
  induction Hs as [request page cbs Hx Hlast
                  |request page cbs token pages Hx Hnext Hs IH];
    intros fuel acc t Hfuel; (destruct fuel as [|fuel]; [cbn in Hfuel; lia|]);
    cbn [Project.list_pages collect page_requests];
    erewrite bind_ok by (eapply run_request_single_guarded; eassumption);
    rewrite bind_lift; fold (page_items page);
    (destruct (page_items page) as [items|e]; [|split; [reflexivity|discriminate]]);
    rewrite bind_lift; cbn [rbind];
    (destruct (rmap (Project.converted c) items) as [here|e];
       [|split; [reflexivity|discriminate]]);
    rewrite bind_lift, Hcol; cbn [rbind]; rewrite Hbase;
    rewrite bind_lift; cbn [Project.list_next].
  - rewrite Hlast. cbn. rewrite app_nil_r. split.
    + reflexivity.
    + intros rs E. reflexivity.
  - rewrite Hnext.
    destruct (IH fuel (acc ++ here)%list (t ++ [Executed (Single request)])%list)
      as [A B]; [cbn in Hfuel; lia|].
    split.
    + rewrite A. destruct (collect c pages) as [more|e]; cbn; [|reflexivity].
      rewrite app_assoc. reflexivity.
    + intros rs E. destruct (collect c pages) as [more|e]; [|discriminate].
      rewrite (B more eq_refl). cbn. rewrite <- app_assoc. reflexivity.
Qed.

(** C6: when the provider answers the listing with a sequence of pages,
    each but the last naming a next page, [_list] requests them one after
    the other until a page names no next one and returns the concatenation
    of the pages' items, each converted by [from_json], in the order
    received; a page without items adds nothing. *)
Theorem list_aggregates_pages (fuel : nat) (self : GceProject)
    (c : resource_class) (zone : pyval) (args : pydict) (base : HttpRequest)
    (pages : list pydict) (t : list event) :
  Project._list_request self (attach self (construct c)) zone args = Ok base ->
  serves self base base pages ->
  length pages <= fuel ->
  snd (Project._list fuel self c zone args t)
  = (rs <- collect c pages ;; Ok (RResources rs))%res /\
  (forall rs,
      collect c pages = Ok rs ->
      Project._list fuel self c zone args t
      = ((t ++ map (fun r => Executed (Single r))
                   (page_requests base base pages))%list,
         Ok (RResources rs)) /\
      calls (fst (Project._list fuel self c zone args t))
      = calls t + length pages).
Proof.
  intros Hbase Hs Hfuel.
  destruct (list_pages_collects self c _ zone args base Hbase base pages Hs
              fuel [] t Hfuel) as [A B].
  unfold Project._list. rewrite bind_lift, Hbase.
  unfold bind, ret.
  destruct (Project.list_pages fuel self c (attach self (construct c)) zone args
              base [] t) as [t' [rs'|e]] eqn:E; cbn [fst snd] in *.
  - split.
    + destruct (collect c pages) as [rs|e]; cbn in A |- *; congruence.
    + intros rs Hc. rewrite (B rs Hc). rewrite Hc in A. cbn in A.
      inversion A; subst. split; [reflexivity|].
      rewrite calls_app, calls_executed, (served_requests _ _ _ _ Hs).
      reflexivity.
  - split.
    + destruct (collect c pages) as [rs|e']; cbn in A |- *; congruence.
    + intros rs Hc. rewrite Hc in A. discriminate.
Qed.

Lemma two_pages_served :
  serves paged_project
    (mkRequest instances list_call
       [("project", PStr "my-project"); ("zone", PStr "us-central1-a")] None)
    (mkRequest instances list_call
       [("project", PStr "my-project"); ("zone", PStr "us-central1-a")] None)
    two_pages.
Proof.
  eapply serves_more; [reflexivity|reflexivity|].
  eapply serves_last; reflexivity.
Qed.

Lemma list_aggregates_pages_witness :
  snd (Project._list 2 paged_project InstanceClass PNone [] [])
  = (rs <- collect InstanceClass two_pages ;; Ok (RResources rs))%res /\
  (rs <- collect InstanceClass two_pages ;; Ok (map name_of rs))%res
  = Ok [PStr "demo-1"; PStr "demo-2"].
Proof.
  split; [|reflexivity].
  exact (proj1 (list_aggregates_pages 2 paged_project InstanceClass PNone [] _
                  two_pages [] eq_refl two_pages_served (le_n 2))).
Defined.

(** ** from_json after json *)

Lemma instance_roundtrip (inst : Instance.t) (iu mu : string) :
  Image.url (Instance.image inst) = Ok iu ->
  MachineType.url (Instance.machine_type inst) = Ok mu ->
  exists d,
    Instance.json inst = Ok (PDict d) /\
    snd (Instance.from_json (PDict d) Instance.new) = Raise (KeyError "zone") /\
    forall z, exists inst',
      Instance.from_json (PDict (dict_set d "zone" (PStr z))) Instance.new
      = (inst', Ok tt) /\
      Instance.name inst' = Instance.name inst /\
      Instance.network_interfaces inst' = Instance.network_interfaces inst /\
      reread (Instance.description inst) (Instance.description inst') /\
      reread (Instance.tags inst) (Instance.tags inst') /\
      reread (Instance.disks inst) (Instance.disks inst') /\
      reread (Instance.metadata inst) (Instance.metadata inst') /\
      reread (Instance.service_accounts inst) (Instance.service_accounts inst') /\
      last_segment (PStr z) = Ok (Zone.name (Instance.zone inst')) /\
      last_segment (PStr iu) = Ok (Image.name (Instance.image inst')) /\
      last_segment (PStr mu)
      = Ok (MachineType.name (Instance.machine_type inst')).
Proof.
  intros Hi Hm. unfold Instance.json. rewrite Hi, Hm. cbn [rbind].
  destruct (last_segment_total iu) as [il Hil].
  destruct (last_segment_total mu) as [ml Hml].
  eexists. split; [reflexivity|].
  unfold reread.
  destruct (truthy (Instance.description inst)) eqn:T1,
    (truthy (Instance.tags inst)) eqn:T2,
    (truthy (Instance.disks inst)) eqn:T3,
    (truthy (Instance.metadata inst)) eqn:T4,
    (truthy (Instance.service_accounts inst)) eqn:T5.
  all: split; [reflexivity|].
  all: intros z; destruct (last_segment_total z) as [zl Hzl].
  all: unfold Instance.from_json, optional_field, optional_items, bind, lift,
         modify, when, rbind.
  all: cbn [dict_set py_getitem py_get dict_get String.eqb Ascii.eqb Bool.eqb].
  all: rewrite Hil, Hml, Hzl.
  all: cbn [truthy]; rewrite ?T1, ?T2, ?T3, ?T4, ?T5.
  all: cbn.
  all: eexists; split; [reflexivity|]; cbn;
       repeat split; try reflexivity; intros; try discriminate.
Qed.

Lemma firewall_roundtrip (fw : Firewall.t) (n : Network.t) (u : string) :
  Firewall.network fw = Firewall.NetworkObject n ->
  Network.url n = Ok u ->
  exists d fw',
    Firewall.json fw = Ok (PDict d) /\
    Firewall.from_json (PDict d) Firewall.new = (fw', Ok tt) /\
    Firewall.name fw' = Firewall.name fw /\
    Firewall.allowed fw' = Firewall.allowed fw /\
    Firewall.network fw' = Firewall.RawNetwork (PStr u) /\
    reread (Firewall.source_ranges fw) (Firewall.source_ranges fw') /\
    (truthy (Firewall.target_tags fw) = false ->
     reread (Firewall.source_tags fw) (Firewall.source_tags fw')).
Proof.
  intros Hn Hu. unfold Firewall.json, Firewall.network_url. rewrite Hn, Hu.
  cbn [rbind]. unfold reread.
  destruct (truthy (Firewall.source_ranges fw)) eqn:T1,
    (truthy (Firewall.source_tags fw)) eqn:T2,
    (truthy (Firewall.target_tags fw)) eqn:T3.
  all: eexists; eexists; split; [reflexivity|].
  all: unfold Firewall.from_json, optional_field, bind, lift, modify, when, rbind.
  all: cbn [dict_set py_getitem py_get dict_get String.eqb Ascii.eqb Bool.eqb].
  all: cbn [truthy]; rewrite ?T1, ?T2, ?T3.
  all: cbn.
  all: split; [reflexivity|]; cbn;
       repeat split; try reflexivity; intros; try discriminate.
Qed.

Lemma image_url_names (img : Image.t) (s u : string) :
  Image.url img = Ok u -> Image.name img = PStr s -> no_slash s = true ->
  last_segment (PStr u) = Ok (PStr s).
Proof.
  unfold Image.url, rbind. destruct (attached (Image.gce_project img)) as [p|e];
    [|discriminate].
  intros E N H. rewrite N in E. eapply resource_url_last_segment; eauto.
Qed.

Lemma machine_type_url_names (m : MachineType.t) (s u : string) :
  MachineType.url m = Ok u -> MachineType.name m = PStr s -> no_slash s = true ->
  last_segment (PStr u) = Ok (PStr s).
Proof.
  unfold MachineType.url, rbind.
  destruct (attached (MachineType.gce_project m)) as [p|e]; [|discriminate].
  intros E N H. rewrite N in E. eapply resource_url_last_segment; eauto.
Qed.

(** C1, as amended: the dictionary of [Instance.json] has no zone, and
    [from_json] on it raises KeyError; with a zone entry added, [from_json]
    on a new Instance gives back the name and the network interfaces, each
    of description, tags, disks, metadata and service accounts that was
    set, and for zone, image and machine type the last path segment of
    what was serialized, which is the original name when that is a string
    without a slash.  For a Firewall whose network is attached,
    [from_json] on the dictionary of [json] gives back the name, the
    allowed rules, the source ranges that were set, and the source tags
    that were set when no target tags are; nothing is said of its network,
    target tags or description, nor of an Image. *)
Theorem json_roundtrip_amended :
  (forall (inst : Instance.t) (iu mu : string),
      Image.url (Instance.image inst) = Ok iu ->
      MachineType.url (Instance.machine_type inst) = Ok mu ->
      exists d,
        Instance.json inst = Ok (PDict d) /\
        snd (Instance.from_json (PDict d) Instance.new)
        = Raise (KeyError "zone") /\
        forall z, exists inst',
          Instance.from_json (PDict (dict_set d "zone" (PStr z))) Instance.new
          = (inst', Ok tt) /\
          Instance.name inst' = Instance.name inst /\
          Instance.network_interfaces inst' = Instance.network_interfaces inst /\
          reread (Instance.description inst) (Instance.description inst') /\
          reread (Instance.tags inst) (Instance.tags inst') /\
          reread (Instance.disks inst) (Instance.disks inst') /\
          reread (Instance.metadata inst) (Instance.metadata inst') /\
          reread (Instance.service_accounts inst)
                 (Instance.service_accounts inst') /\
          last_segment (PStr z) = Ok (Zone.name (Instance.zone inst')) /\
          last_segment (PStr iu) = Ok (Image.name (Instance.image inst')) /\
          last_segment (PStr mu)
          = Ok (MachineType.name (Instance.machine_type inst')) /\
          (no_slash z = true -> Zone.name (Instance.zone inst') = PStr z) /\
          (forall s, no_slash s = true ->
                     Image.name (Instance.image inst) = PStr s ->
                     Image.name (Instance.image inst') = PStr s) /\
          (forall s, no_slash s = true ->
                     MachineType.name (Instance.machine_type inst) = PStr s ->
                     MachineType.name (Instance.machine_type inst') = PStr s)) /\
  (forall (fw : Firewall.t) (n : Network.t) (u : string),
      Firewall.network fw = Firewall.NetworkObject n ->
      Network.url n = Ok u ->
      exists d fw',
        Firewall.json fw = Ok (PDict d) /\
        Firewall.from_json (PDict d) Firewall.new = (fw', Ok tt) /\
        Firewall.name fw' = Firewall.name fw /\
        Firewall.allowed fw' = Firewall.allowed fw /\
        reread (Firewall.source_ranges fw) (Firewall.source_ranges fw') /\
        (truthy (Firewall.target_tags fw) = false ->
         reread (Firewall.source_tags fw) (Firewall.source_tags fw'))).
Proof.
  split;
    [|intros fw n u Hn Hu;
      destruct (firewall_roundtrip fw n u Hn Hu)
        as (d & fw' & A & B & C & D & _ & E & F);
      exists d, fw'; repeat (split; [assumption|]); assumption].
  intros inst iu mu Hi Hm.
  destruct (instance_roundtrip inst iu mu Hi Hm) as (d & Hj & Hz & Hr).
  exists d. split; [exact Hj|]. split; [exact Hz|].
  intros z. destruct (Hr z) as (inst' & H).
  exists inst'.
  destruct H as (E & A1 & A2 & A3 & A4 & A5 & A6 & A7 & Z & I & Mt).
  repeat (split; [assumption|]).
  split; [|split].
  - intros Hs.
    assert (X : last_segment (PStr z) = Ok (PStr z)).
    { unfold last_segment. rewrite (split_slash_plain z Hs). reflexivity. }
    rewrite X in Z. inversion Z. reflexivity.
  - intros s Hs N. rewrite (image_url_names _ _ _ Hi N Hs) in I.
    inversion I. reflexivity.
  - intros s Hs N. rewrite (machine_type_url_names _ _ _ Hm N Hs) in Mt.
    inversion Mt. reflexivity.
Qed.

Lemma json_roundtrip_amended_witness :
  (exists d inst',
      Instance.json demo_instance = Ok (PDict d) /\
      snd (Instance.from_json (PDict d) Instance.new) = Raise (KeyError "zone") /\
      Instance.from_json
        (PDict (dict_set d "zone"
                  (PStr "https://www.googleapis.com/zones/us-central1-a")))
        Instance.new
      = (inst', Ok tt) /\
      Instance.name inst' = PStr "demo-1" /\
      Instance.network_interfaces inst'
      = PList [PDict [("network", PStr "default")]] /\
      Instance.description inst' = PStr "a demo instance" /\
      Instance.tags inst' = PList [PStr "web"] /\
      Zone.name (Instance.zone inst') = PStr "us-central1-a" /\
      Image.name (Instance.image inst') = PStr "debian-7" /\
      MachineType.name (Instance.machine_type inst') = PStr "n1-standard-1") /\
  (exists d fw',
      Firewall.json demo_firewall = Ok (PDict d) /\
      Firewall.from_json (PDict d) Firewall.new = (fw', Ok tt) /\
      Firewall.name fw' = Firewall.name demo_firewall /\
      Firewall.allowed fw' = Firewall.allowed demo_firewall /\
      reread (Firewall.source_ranges demo_firewall) (Firewall.source_ranges fw') /\
      (truthy (Firewall.target_tags demo_firewall) = false ->
       reread (Firewall.source_tags demo_firewall) (Firewall.source_tags fw'))).
Proof.
  split.
  - destruct (proj1 json_roundtrip_amended demo_instance
                (demo_url ++ "/projects/google/global/images/debian-7")
                (demo_url
                 ++ "/projects/my-project/global/machineTypes/n1-standard-1"))
      as (d & Hj & Hz & Hr); [vm_compute; reflexivity|vm_compute; reflexivity|].
    destruct (Hr "https://www.googleapis.com/zones/us-central1-a")
      as (inst' & E & N & NI & D & T & _ & _ & _ & Z & _ & _ & _ & I & Mt).
    exists d, inst'.
    split; [exact Hj|]. split; [exact Hz|]. split; [exact E|].
    split; [exact N|]. split; [exact NI|].
    split; [apply D; reflexivity|]. split; [apply T; reflexivity|].
    split; [|split].
    + assert (L : last_segment
                    (PStr "https://www.googleapis.com/zones/us-central1-a")
                  = Ok (PStr "us-central1-a")) by (vm_compute; reflexivity).
      rewrite L in Z. injection Z as Z. symmetry. exact Z.
    + apply I; reflexivity.
    + apply Mt; reflexivity.
  - refine (proj2 json_roundtrip_amended demo_firewall
              (Network.mk (PStr "default") (Some (demo_project [])))
              (demo_url ++ "/projects/my-project/global/networks/default")
              eq_refl _).
    vm_compute. reflexivity.
Defined.

(** C1 fails as stated: [from_json] on the dictionary of [Instance.json]
    raises KeyError for the zone; [Image.json] is [None], on which
    [from_json] raises; and the target tags of a Firewall come back as its
    source tags. *)
Lemma json_roundtrip_fails :
  (exists d,
      Instance.json demo_instance = Ok (PDict d) /\
      snd (Instance.from_json (PDict d) Instance.new) = Raise (KeyError "zone")) /\
  (Image.json (Instance.image demo_instance) = Ok PNone /\
   snd (Image.from_json PNone Image.new) = Raise (TypeError "subscript")) /\
  (exists d fw',
      Firewall.json demo_firewall = Ok (PDict d) /\
      Firewall.from_json (PDict d) Firewall.new = (fw', Ok tt) /\
      Firewall.target_tags demo_firewall = PList [PStr "web"] /\
      Firewall.target_tags fw' = PNone /\
      Firewall.source_tags demo_firewall = PNone /\
      Firewall.source_tags fw' = PList [PStr "web"]).
Proof.
  split; [|split].
  - eexists. split; vm_compute; reflexivity.
  - split; reflexivity.
  - eexists. eexists. split; [vm_compute; reflexivity|].
    split; [vm_compute; reflexivity|]. repeat split.
Qed.

(** * Further properties *)

(** ** The constructor *)

(** X1: a client is built exactly when the settings give an API version
    and a project and a zone come from the arguments or, for an empty
    argument, from the settings; an argument that is set wins over the
    settings, and no other key of the settings is looked at. *)
Theorem init_resolves_project_and_zone (loaded : pyval)
    (built : Request -> executed) (pid zn : pyval) :
  (forall p,
      __init__ loaded built pid zn = Ok p ->
      settings p = loaded /\ service p = built /\
      (exists version v,
          compute_setting p "api_version" = Ok version /\
          py_str version = Ok v /\
          gce_url p = "https://www.googleapis.com/compute/" ++ v) /\
      (if truthy pid then project_id p = pid
       else py_getitem loaded "project" = Ok (project_id p)) /\
      (if truthy zn then zone_name p = zn
       else compute_setting p "zone" = Ok (zone_name p))) /\
  (forall version v,
      (c <- py_getitem loaded "compute" ;; py_getitem c "api_version")%res
      = Ok version ->
      py_str version = Ok v ->
      truthy pid = true -> truthy zn = true ->
      __init__ loaded built pid zn
      = Ok (mkProject loaded ("https://www.googleapis.com/compute/" ++ v)
                      pid zn built)) /\
  (forall d version v,
      loaded = PDict d ->
      (c <- py_getitem loaded "compute" ;; py_getitem c "api_version")%res
      = Ok version ->
      py_str version = Ok v ->
      truthy pid = false -> dict_get d "project" = None ->
      __init__ loaded built pid zn = Raise (KeyError "project")).
Proof.
  unfold __init__, compute_setting. split; [|split].
  - intros p E.
    destruct (c <- py_getitem loaded "compute" ;;
              py_getitem c "api_version")%res as [version|e] eqn:Ev;
      [|discriminate]; cbn [rbind] in E.
    destruct (py_str version) as [v|e] eqn:Es; [|discriminate].
    cbn [rbind] in E.
    destruct (truthy pid) eqn:Tp; cbn [negb rbind] in E;
      [|destruct (py_getitem loaded "project") as [pr|e] eqn:Ep;
        [|discriminate]; cbn [rbind] in E].
    all: destruct (truthy zn) eqn:Tz; cbn [negb rbind] in E;
      [|destruct (c <- py_getitem loaded "compute" ;;
                  py_getitem c "zone")%res as [z|e] eqn:Ez;
        [|discriminate]; cbn [rbind] in E].
    all: inversion E; subst; cbn; repeat split; eauto.
  - intros version v Ev Es Tp Tz. rewrite Ev. cbn [rbind]. rewrite Es, Tp, Tz.
    reflexivity.
  - intros d version v -> Ev Es Tp Hd. rewrite Ev. cbn [rbind].
    rewrite Es, Tp. cbn. rewrite Hd. reflexivity.
Qed.

Lemma init_resolves_project_and_zone_witness :
  __init__ demo_settings (demo_service []) (PStr "") (PStr "europe-west1-b")
  = Ok (mkProject demo_settings demo_url (PStr "my-project")
                  (PStr "europe-west1-b") (demo_service [])) /\
  __init__ demo_settings (demo_service []) (PStr "other") (PStr "europe-west1-b")
  = Ok (mkProject demo_settings ("https://www.googleapis.com/compute/" ++ "v1beta14")
                  (PStr "other") (PStr "europe-west1-b") (demo_service [])).
Proof.
  split; [reflexivity|].
  exact (proj1 (proj2 (init_resolves_project_and_zone demo_settings
                         (demo_service []) (PStr "other") (PStr "europe-west1-b")))
               (PStr "v1beta14") "v1beta14" eq_refl eq_refl eq_refl eq_refl).
Defined.

(** ** URLs *)

Section Urls.
#[local] Opaque resource_url.

(** X2: the URL of an image, machine type, zone or network exists only
    once the object is attached to a client, and for a name that is a
    string without a slash the last path segment of the URL is the name. *)
Theorem url_needs_project_and_ends_in_name :
  (forall i, Image.gce_project i = None ->
             Image.url i = Raise (AttributeError "gce_project")) /\
  (forall m, MachineType.gce_project m = None ->
             MachineType.url m = Raise (AttributeError "gce_project")) /\
  (forall z, Zone.gce_project z = None ->
             Zone.url z = Raise (AttributeError "gce_project")) /\
  (forall n, Network.gce_project n = None ->
             Network.url n = Raise (AttributeError "gce_project")) /\
  (forall i s u, Image.url i = Ok u -> Image.name i = PStr s ->
                 no_slash s = true -> last_segment (PStr u) = Ok (PStr s)) /\
  (forall m s u, MachineType.url m = Ok u -> MachineType.name m = PStr s ->
                 no_slash s = true -> last_segment (PStr u) = Ok (PStr s)) /\
  (forall z s u, Zone.url z = Ok u -> Zone.name z = PStr s ->
                 no_slash s = true -> last_segment (PStr u) = Ok (PStr s)) /\
  (forall n s u, Network.url n = Ok u -> Network.name n = PStr s ->
                 no_slash s = true -> last_segment (PStr u) = Ok (PStr s)).
Proof.
  repeat match goal with |- _ /\ _ => split end.
  - intros i H. unfold Image.url. rewrite H. reflexivity.
  - intros i H. unfold MachineType.url. rewrite H. reflexivity.
  - intros i H. unfold Zone.url. rewrite H. reflexivity.
  - intros i H. unfold Network.url. rewrite H. reflexivity.
  - intros i s u. unfold Image.url, rbind.
    destruct (attached (Image.gce_project i)) as [p|e]; [|discriminate].
    intros E N H. rewrite N in E. eapply resource_url_last_segment; eauto.
  - intros i s u. unfold MachineType.url, rbind.
    destruct (attached (MachineType.gce_project i)) as [p|e]; [|discriminate].
    intros E N H. rewrite N in E. eapply resource_url_last_segment; eauto.
  - intros i s u. unfold Zone.url, rbind.
    destruct (attached (Zone.gce_project i)) as [p|e]; [|discriminate].
    intros E N H. rewrite N in E. eapply resource_url_last_segment; eauto.
  - intros i s u. unfold Network.url, rbind.
    destruct (attached (Network.gce_project i)) as [p|e]; [|discriminate].
    intros E N H. rewrite N in E. eapply resource_url_last_segment; eauto.
Qed.
End Urls.

Lemma url_needs_project_and_ends_in_name_witness :
  Zone.url (Zone.mk (PStr "us-central1-a") (Some (demo_project [])))
  = Ok (demo_url ++ "/projects/my-project/global/zones/us-central1-a") /\
  last_segment
    (PStr (demo_url ++ "/projects/my-project/global/zones/us-central1-a"))
  = Ok (PStr "us-central1-a").
Proof.
  split; [reflexivity|].
  exact (proj1 (proj2 (proj2 (proj2 (proj2 (proj2 (proj2
           url_needs_project_and_ends_in_name))))))
           (Zone.mk (PStr "us-central1-a") (Some (demo_project [])))
           "us-central1-a" _ eq_refl eq_refl eq_refl).
Defined.

(** ** set_defaults, again *)

(** Rewrites or splits an innermost scrutinee of the goal. *)
Ltac settle :=
  repeat match goal with
  | H : ?x = _ |- context [match ?x with _ => _ end] => rewrite H; cbn
  | |- context [match ?x with _ => _ end] =>
      lazymatch x with
      | context [match _ with _ => _ end] => fail
      | _ => destruct x eqn:?; cbn
      end
  end.

Ltac same_values :=
  repeat match goal with
  | H : Ok _ = Ok _ |- _ => inversion H; subst; clear H
  | H : Some _ = Some _ |- _ => inversion H; subst; clear H
  | H1 : ?x = Ok _, H2 : ?x = Ok _ |- _ =>
      rewrite H1 in H2; inversion H2; subst; clear H2
  | H1 : ?x = Ok _, H2 : ?x = Raise _ |- _ => rewrite H1 in H2; discriminate
  end.

Ltac again_by_cases E :=
  cbn in E; repeat step E; cbn in *; same_values;
  repeat (settle; same_values); try reflexivity; try discriminate.

Section Again.
#[local] Opaque compute_setting resource_url py_getitem truthy.

Lemma zone_defaults_again (z z' : Zone.t) :
  Zone.set_defaults z = (z', Ok tt) -> Zone.set_defaults z' = (z', Ok tt).
Proof.
  destruct z as [n gp]. unfold Zone.set_defaults, attached. run_se.
  intros E. again_by_cases E.
Qed.

Lemma machine_type_defaults_again (m m' : MachineType.t) :
  MachineType.set_defaults m = (m', Ok tt) ->
  MachineType.set_defaults m' = (m', Ok tt).
Proof.
  destruct m as [n gp]. unfold MachineType.set_defaults, attached. run_se.
  intros E. again_by_cases E.
Qed.

Lemma network_defaults_again (n n' : Network.t) :
  Network.set_defaults n = (n', Ok tt) -> Network.set_defaults n' = (n', Ok tt).
Proof.
  destruct n as [nm gp]. unfold Network.set_defaults, attached. run_se.
  intros E. again_by_cases E.
Qed.

Lemma image_defaults_again (i i' : Image.t) :
  Image.set_defaults i = (i', Ok tt) -> Image.set_defaults i' = (i', Ok tt).
Proof.
  destruct i. unfold Image.set_defaults, attached. run_se.
  intros E. again_by_cases E.
Qed.

Lemma firewall_defaults_again (f f' : Firewall.t) :
  Firewall.set_defaults f = (f', Ok tt) -> Firewall.set_defaults f' = (f', Ok tt).
Proof.
  destruct f as [n d [[nn ngp]|raw] sr st tt a gp];
    unfold Firewall.set_defaults, Firewall.on_network, Firewall.network_name,
      Network.set_defaults, attached; run_se;
    intros E; again_by_cases E.
Qed.

Lemma instance_defaults_again (i i' : Instance.t) :
  Instance.set_defaults i = (i', Ok tt) -> Instance.set_defaults i' = (i', Ok tt).
Proof.
  destruct i as [n [zn zgp] d tg [inm ipr ide ist ipk ird igp] [mn mgp]
                   ni dk md sa k s sm gp].
  unfold Instance.set_defaults, Instance.on_zone, Instance.on_image,
    Instance.on_machine_type, Zone.set_defaults, Image.set_defaults,
    MachineType.set_defaults, Network.url, attached; run_se.
  intros E. again_by_cases E.
Qed.

(** X3: when [Instance.set_defaults] succeeds the instance was attached to
    a client, its zone, image and machine type are attached to the same
    client, each of their names that was unset is the configured default,
    and unset network interfaces are one interface on the URL of the
    configured network with the configured access configs. *)
Theorem instance_defaults_from_configuration (i i' : Instance.t) :
  Instance.set_defaults i = (i', Ok tt) ->
  exists p,
    Instance.gce_project i = Some p /\
    Instance.gce_project i' = Some p /\
    Zone.gce_project (Instance.zone i') = Some p /\
    Image.gce_project (Instance.image i') = Some p /\
    MachineType.gce_project (Instance.machine_type i') = Some p /\
    (truthy (Zone.name (Instance.zone i)) = false ->
     compute_setting p "zone" = Ok (Zone.name (Instance.zone i'))) /\
    (truthy (Image.name (Instance.image i)) = false ->
     compute_setting p "image" = Ok (Image.name (Instance.image i'))) /\
    (truthy (MachineType.name (Instance.machine_type i)) = false ->
     compute_setting p "machine_type"
     = Ok (MachineType.name (Instance.machine_type i'))) /\
    (truthy (Instance.network_interfaces i) = false ->
     exists network url configs,
       compute_setting p "network" = Ok network /\
       Network.url (Network.mk network (Some p)) = Ok url /\
       compute_setting p "access_configs" = Ok configs /\
       Instance.network_interfaces i'
       = PList [PDict [("network", PStr url); ("accessConfigs", configs)]]).
Proof.
  destruct i as [n [zn zgp] d tg [inm ipr ide ist ipk ird igp] [mn mgp]
                   ni dk md sa k s sm gp].
  unfold Instance.set_defaults, Instance.on_zone, Instance.on_image,
    Instance.on_machine_type, Zone.set_defaults, Image.set_defaults,
    MachineType.set_defaults, Network.url, attached; run_se.
  intros E. cbn in E. repeat step E. all: cbn in *; same_values.
  all: eexists; repeat match goal with |- _ /\ _ => split end;
    try reflexivity; intros;
    try match goal with
        | H : negb (truthy ?v) = false, H' : truthy ?v = false |- _ =>
            rewrite H' in H; discriminate
        end;
    try assumption;
    try (do 3 eexists; repeat split; eassumption).
Qed.
End Again.

(** X4: running [set_defaults] a second time changes nothing: on a
    resource of any class, a call that succeeds leaves a resource on which
    the next call succeeds and returns it as it is. *)
Theorem set_defaults_idempotent (r r' : GceResource) :
  set_defaults r = (r', Ok tt) -> set_defaults r' = (r', Ok tt).
Proof.
  unfold set_defaults, as_resource. intros E.
  destruct r as [i|f|i|m|z|n].
  - destruct (Instance.set_defaults i) as [x [[]|e]] eqn:Ex; inversion E; subst.
    rewrite (instance_defaults_again _ _ Ex). reflexivity.
  - destruct (Firewall.set_defaults f) as [x [[]|e]] eqn:Ex; inversion E; subst.
    rewrite (firewall_defaults_again _ _ Ex). reflexivity.
  - destruct (Image.set_defaults i) as [x [[]|e]] eqn:Ex; inversion E; subst.
    rewrite (image_defaults_again _ _ Ex). reflexivity.
  - destruct (MachineType.set_defaults m) as [x [[]|e]] eqn:Ex; inversion E; subst.
    rewrite (machine_type_defaults_again _ _ Ex). reflexivity.
  - destruct (Zone.set_defaults z) as [x [[]|e]] eqn:Ex; inversion E; subst.
    rewrite (zone_defaults_again _ _ Ex). reflexivity.
  - destruct (Network.set_defaults n) as [x [[]|e]] eqn:Ex; inversion E; subst.
    rewrite (network_defaults_again _ _ Ex). reflexivity.
Qed.

Lemma set_defaults_idempotent_witness :
  set_defaults (fst (set_defaults (AnInstance bare_instance)))
  = (fst (set_defaults (AnInstance bare_instance)), Ok tt).
Proof.
  apply (set_defaults_idempotent (AnInstance bare_instance)).
  vm_compute. reflexivity.
Defined.

Lemma instance_defaults_from_configuration_witness :
  exists p,
    Instance.gce_project bare_instance = Some p /\
    Zone.gce_project (Instance.zone (fst (Instance.set_defaults bare_instance)))
    = Some p /\
    compute_setting p "zone"
    = Ok (Zone.name (Instance.zone (fst (Instance.set_defaults bare_instance)))).
Proof.
  destruct (instance_defaults_from_configuration bare_instance
              (fst (Instance.set_defaults bare_instance)))
    as (p & A & _ & B & _ & _ & C & _).
  - vm_compute. reflexivity.
  - exists p. split; [exact A|]. split; [exact B|]. apply C. reflexivity.
Defined.

(** ** Provider calls *)

Lemma batch_callbacks_logged (cbs : list (option exn)) (t : list event) :
  for_each cbs Project._batch_response t = ((t ++ logged cbs)%list, Ok tt).
Proof.
  revert t. induction cbs as [|[e|] cbs IH]; intros t; cbn [for_each logged].
  - rewrite app_nil_r. reflexivity.
  - unfold bind. cbn. rewrite IH, <- app_assoc. reflexivity.
  - unfold bind. cbn. apply IH.
Qed.

Lemma run_request_batch (self : GceProject) (qs : list HttpRequest) (v : pyval)
    (cbs : list (option exn)) (t : list event) :
  service self (Batch qs) = Returned v cbs ->
  Project._run_request self (Batch qs) t
  = ((t ++ Executed (Batch qs) :: logged cbs)%list, Ok PNone).
Proof.
  intros E.
  unfold Project._run_request, Project.execute, try_except, bind, emit, modify, ret.
  rewrite E, batch_callbacks_logged, <- app_assoc. reflexivity.
Qed.

Lemma run_request_failed (self : GceProject) (request : Request) (e : exn)
    (t : list event) :
  service self request = Failed e ->
  Project._run_request self request t
  = ((t ++ Executed request :: logged_failure e)%list, Raise (translated e)).
Proof.
  intros E.
  unfold Project._run_request, Project.execute, try_except, bind, emit, modify,
    ret, raise, lift.
  rewrite E. destruct e; cbn; rewrite <- ?app_assoc; reflexivity.
Qed.

Lemma reraise_keeps {A : Type} (m : M A) (t : list event) :
  try_except m Project.reraise t = m t.
Proof.
  unfold try_except. destruct (m t) as [t' [a|e]]; [reflexivity|].
  destruct e; reflexivity.
Qed.

(** ** The bulk methods *)

Lemma add_all_requests (self : GceProject) (build : SE GceResource HttpRequest)
    (resources : list GceResource) (batch : list HttpRequest) (t : list event) :
  Project.add_all self build resources batch t
  = match requests_for self build resources with
    | Ok qs => (t, Ok (batch ++ qs)%list)
    | Raise e => (t, Raise e)
    end.
Proof.
  revert batch. induction resources as [|r rs IH]; intros batch;
    cbn [Project.add_all requests_for rmap].
  - unfold ret. rewrite app_nil_r. reflexivity.
  - unfold bind, Project.on_resource.
    destruct (build (attach self r)) as [r' [q|e]]; [|reflexivity].
    cbn [snd]. rewrite IH. fold (requests_for self build rs).
    destruct (requests_for self build rs) as [qs|e]; [|reflexivity].
    rewrite <- app_assoc. reflexivity.
Qed.

Lemma requests_for_length self build resources qs :
  requests_for self build resources = Ok qs -> length qs = length resources.
Proof.
  revert qs. unfold requests_for.
  induction resources as [|r rs IH]; intros qs; cbn [rmap].
  - intros E. inversion E. reflexivity.
  - destruct (build (attach self r)) as [r' [q|e]]; [|discriminate].
    destruct (rmap _ rs) as [qs'|e]; [|discriminate].
    intros E. inversion E. cbn. rewrite (IH qs' eq_refl). reflexivity.
Qed.

Lemma bulk_shape (self : GceProject) (build : SE GceResource HttpRequest)
    (resources : list GceResource) (t : list event) :
  bind (Project.add_all self build resources [])
       (fun batch =>
          bind (try_except (bind (Project._run_request self (Batch batch))
                                 (fun _ => ret tt)) Project.reraise)
               (fun _ => ret RNone)) t
  = match requests_for self build resources with
    | Raise e => (t, Raise e)
    | Ok qs =>
        match service self (Batch qs) with
        | Returned _ cbs =>
            ((t ++ Executed (Batch qs) :: logged cbs)%list, Ok RNone)
        | Failed e =>
            ((t ++ Executed (Batch qs) :: logged_failure e)%list,
             Raise (translated e))
        end
    end.
Proof.
  unfold bind at 1. rewrite add_all_requests.
  destruct (requests_for self build resources) as [qs|e]; [|reflexivity].
  cbn [app]. unfold bind at 1. rewrite reraise_keeps. unfold bind at 1.
  destruct (service self (Batch qs)) as [v cbs|e] eqn:E.
  - rewrite (run_request_batch _ _ _ _ _ E). reflexivity.
  - rewrite (run_request_failed _ _ _ _ E). reflexivity.
Qed.

(** X5: a bulk insert or bulk delete whose requests all build makes one
    provider call, a batch with one request per resource in the order
    given; failures the batch reports for single items are logged and the
    method still returns; a failure of the call itself is raised as the
    translated error. *)
Theorem bulk_is_one_batch (self : GceProject) (resources : list GceResource)
    (t : list event) :
  (forall qs,
      requests_for self (Project._delete_request self) resources = Ok qs ->
      length qs = length resources /\
      (forall v cbs,
          service self (Batch qs) = Returned v cbs ->
          Project.bulk_delete self resources t
          = ((t ++ Executed (Batch qs) :: logged cbs)%list, Ok RNone)) /\
      (forall e,
          service self (Batch qs) = Failed e ->
          Project.bulk_delete self resources t
          = ((t ++ Executed (Batch qs) :: logged_failure e)%list,
             Raise (translated e)))) /\
  (forall qs,
      requests_for self (Project._insert_request self) resources = Ok qs ->
      length qs = length resources /\
      (forall v cbs,
          service self (Batch qs) = Returned v cbs ->
          Project.bulk_insert self resources t
          = ((t ++ Executed (Batch qs) :: logged cbs)%list, Ok RNone)) /\
      (forall e,
          service self (Batch qs) = Failed e ->
          Project.bulk_insert self resources t
          = ((t ++ Executed (Batch qs) :: logged_failure e)%list,
             Raise (translated e)))).
Proof.
  split; intros qs Hq; (split; [eapply requests_for_length; eauto|]); split.
  - intros v cbs E. unfold Project.bulk_delete. rewrite bulk_shape, Hq, E.
    reflexivity.
  - intros e E. unfold Project.bulk_delete. rewrite bulk_shape, Hq, E.
    reflexivity.
  - intros v cbs E. unfold Project.bulk_insert. rewrite bulk_shape, Hq, E.
    reflexivity.
  - intros e E. unfold Project.bulk_insert. rewrite bulk_shape, Hq, E.
    reflexivity.
Qed.

Lemma bulk_is_one_batch_witness :
  Project.bulk_delete (project_with (refusing_service (HttpError 404 "Not Found")))
    [AnInstance demo_instance; AnInstance bare_instance] []
  = ([Executed (Batch
        [mkRequest instances delete_call
           [("project", PStr "my-project"); ("instance", PStr "demo-1");
            ("zone", PStr "us-central1-a")] None;
         mkRequest instances delete_call
           [("project", PStr "my-project"); ("instance", PStr "demo-1");
            ("zone", PStr "us-central1-a")] None]);
      LoggedError (HttpError 404 "Not Found");
      LoggedError (HttpError 404 "Not Found")],
     Ok RNone).
Proof.
  refine (proj1 (proj2 (proj1 (bulk_is_one_batch
            (project_with (refusing_service (HttpError 404 "Not Found")))
            [AnInstance demo_instance; AnInstance bare_instance] [])
            [mkRequest instances delete_call
               [("project", PStr "my-project"); ("instance", PStr "demo-1");
                ("zone", PStr "us-central1-a")] None;
             mkRequest instances delete_call
               [("project", PStr "my-project"); ("instance", PStr "demo-1");
                ("zone", PStr "us-central1-a")] None] _))
            PNone
            [Some (HttpError 404 "Not Found"); Some (HttpError 404 "Not Found")]
            _); vm_compute; reflexivity.
Defined.

(** X6: when the request of one resource cannot be built, a bulk insert or
    bulk delete raises that exception and makes no provider call, for the
    resources before it either. *)
Theorem bulk_sends_nothing_when_a_request_fails (self : GceProject)
    (resources : list GceResource) (t : list event) (e : exn) :
  (requests_for self (Project._delete_request self) resources = Raise e ->
   Project.bulk_delete self resources t = (t, Raise e)) /\
  (requests_for self (Project._insert_request self) resources = Raise e ->
   Project.bulk_insert self resources t = (t, Raise e)).
Proof.
  split; intros Hq.
  - unfold Project.bulk_delete. rewrite bulk_shape, Hq. reflexivity.
  - unfold Project.bulk_insert. rewrite bulk_shape, Hq. reflexivity.
Qed.

Lemma bulk_sends_nothing_when_a_request_fails_witness :
  Project.bulk_insert (demo_project [])
    [AnInstance demo_instance; AZone (Zone.init (PStr "us-central1-a"))] []
  = ([], Raise (AttributeError "json")).
Proof.
  apply (proj2 (bulk_sends_nothing_when_a_request_fails (demo_project [])
                  [AnInstance demo_instance;
                   AZone (Zone.init (PStr "us-central1-a"))] []
                  (AttributeError "json"))).
  vm_compute. reflexivity.
Defined.

(** ** What insert sends *)

Section Inserts.
#[local] Opaque compute_setting resource_url py_getitem truthy.

(** X7: a firewall as [Firewall.__init__] builds it cannot be inserted:
    its network is never attached to the client, so [insert] raises before
    any provider call, with AttributeError when the network name is unset
    or when source ranges and allowed rules are set. *)
Theorem insert_of_new_firewall_fails (self : GceProject)
    (name description network_name source_ranges source_tags target_tags
       allowed : pyval) (t : list event) :
  exists e,
    Project.insert self
      (AFirewall (Firewall.init name description network_name source_ranges
                                source_tags target_tags allowed)) t
    = (t, Raise e) /\
    (truthy network_name = false -> e = AttributeError "gce_project") /\
    (truthy source_ranges = true -> truthy allowed = true ->
     e = AttributeError "gce_project").
Proof.
  unfold Project.insert, Project.on_resource, Project._insert_request,
    set_defaults, as_resource, Firewall.set_defaults, Firewall.on_network,
    Firewall.network_name, Network.set_defaults, json, Firewall.json,
    Firewall.network_url, Network.url, attached.
  run_se. cbn. settle.
  all: eexists; split; [reflexivity|]; split; intros; try reflexivity;
    repeat match goal with
           | H : truthy ?v = _, H' : negb (truthy ?v) = _ |- _ =>
               rewrite H in H'; cbn in H'
           | H : _ && _ = true |- _ => apply andb_prop in H; destruct H
           end;
    try discriminate.
Qed.

(** X8: [insert] of a machine type, a zone or a network never reaches the
    provider: these classes have no [json], and with the name set the
    exception is AttributeError. *)
Theorem insert_without_json_fails (self : GceProject) (r : GceResource)
    (t : list event) :
  class_of r = MachineTypeClass \/ class_of r = ZoneClass \/
  class_of r = NetworkClass ->
  exists e,
    Project.insert self r t = (t, Raise e) /\
    (truthy (name_of r) = true -> e = AttributeError "json").
Proof.
  intros C.
  destruct r as [i|f|i|[n gp]|[n gp]|[n gp]];
    try (destruct C as [C|[C|C]]; discriminate C).
  all: unfold Project.insert, Project.on_resource, Project._insert_request,
         set_defaults, as_resource, MachineType.set_defaults, Zone.set_defaults,
         Network.set_defaults, json, attached.
  all: run_se; cbn; settle.
  all: eexists; split; [reflexivity|]; intros; try reflexivity;
    repeat match goal with
           | H : truthy ?v = _, H' : negb (truthy ?v) = _ |- _ =>
               rewrite H in H'; cbn in H'
           end;
    try discriminate.
Qed.

(** X9: the request [insert] sends for an image has the project and a body
    that is [None]: no attribute of the image reaches the provider. *)
Theorem insert_of_image_sends_no_body (self : GceProject) (img : Image.t)
    (t : list event) (v : pyval) (cbs : list (option exn)) :
  truthy (Image.name img) = true ->
  service self (Single (mkRequest images insert_call
                          [("project", project_id self); ("body", PNone)] None))
  = Returned v cbs ->
  Project.insert self (AnImage img) t
  = ((t ++ [Executed (Single (mkRequest images insert_call
                                [("project", project_id self); ("body", PNone)]
                                None))])%list,
     Ok RNone).
Proof.
  intros Hn Hs. destruct img.
  unfold Project.insert, Project.on_resource, Project._insert_request,
    set_defaults, as_resource, Image.set_defaults, json, Image.json, attached.
  cbn in Hn. run_se. cbn. rewrite Hn. cbn.
  unfold try_except.
  rewrite (run_request_single _ _ _ _ _ Hs). reflexivity.
Qed.
End Inserts.

Lemma insert_of_new_firewall_fails_witness :
  exists e,
    Project.insert (demo_project [])
      (AFirewall (Firewall.init (PStr "demo-fw") PNone (PStr "default")
                    (PList [PStr "10.0.0.0/8"]) PNone PNone
                    (PList [PDict [("IPProtocol", PStr "tcp")]]))) []
    = ([], Raise e) /\
    e = AttributeError "gce_project".
Proof.
  destruct (insert_of_new_firewall_fails (demo_project []) (PStr "demo-fw") PNone
              (PStr "default") (PList [PStr "10.0.0.0/8"]) PNone PNone
              (PList [PDict [("IPProtocol", PStr "tcp")]]) [])
    as (e & E & _ & H).
  exists e. split; [exact E|]. apply H; reflexivity.
Defined.

Lemma insert_without_json_fails_witness :
  exists e,
    Project.insert (demo_project []) (AZone (Zone.init (PStr "us-central1-a"))) []
    = ([], Raise e) /\
    e = AttributeError "json".
Proof.
  destruct (insert_without_json_fails (demo_project [])
              (AZone (Zone.init (PStr "us-central1-a"))) []
              (or_intror (or_introl eq_refl)))
    as (e & E & H).
  exists e. split; [exact E|]. apply H. reflexivity.
Defined.

Lemma insert_of_image_sends_no_body_witness :
  Project.insert (demo_project [])
    (AnImage (Image.init (PStr "my-image") (PStr "my-project")
                (PStr "a custom image") (PStr "RAW") PNone
                (PDict [("source", PStr "http://storage/my-image.tar.gz")]))) []
  = ([Executed (Single (mkRequest images insert_call
                          [("project", PStr "my-project"); ("body", PNone)]
                          None))],
     Ok RNone).
Proof.
  apply (insert_of_image_sends_no_body (demo_project [])
           (Image.init (PStr "my-image") (PStr "my-project")
              (PStr "a custom image") (PStr "RAW") PNone
              (PDict [("source", PStr "http://storage/my-image.tar.gz")]))
           [] (PDict []) []); reflexivity.
Defined.

(** ** Firewalls that were listed *)

Lemma from_json_keeps_raw_network (j : pyval) (f0 f : Firewall.t) :
  Firewall.from_json j f0 = (f, Ok tt) ->
  exists v, Firewall.network f = Firewall.RawNetwork v.
Proof.
  unfold Firewall.from_json, optional_field. run_se. intros E.
  repeat step E; cbn; eauto.
Qed.

Lemma raw_network_has_no_name (f : Firewall.t) (v : pyval) :
  Firewall.network f = Firewall.RawNetwork v ->
  Firewall.set_defaults f = (f, Raise (AttributeError "name")).
Proof.
  intros E. unfold Firewall.set_defaults, Firewall.network_name. run_se.
  rewrite E. reflexivity.
Qed.

(** X10: a firewall that [from_json] filled, as every listed firewall is,
    can be neither deleted nor inserted again: its network is the
    provider's string, and the bulk delete and the insert raise
    AttributeError before any provider call. *)
Theorem listed_firewall_cannot_be_deleted (self : GceProject) (j : pyval)
    (f0 f : Firewall.t) (rest : list GceResource) (t : list event) :
  Firewall.from_json j f0 = (f, Ok tt) ->
  Project.bulk_delete self (AFirewall f :: rest) t
  = (t, Raise (AttributeError "name")) /\
  Project.insert self (AFirewall f) t = (t, Raise (AttributeError "name")).
Proof.
  intros E. destruct (from_json_keeps_raw_network _ _ _ E) as [v Hv].
  assert (D : Firewall.set_defaults (Firewall.set_gce_project self f)
              = (Firewall.set_gce_project self f, Raise (AttributeError "name"))).
  { apply (raw_network_has_no_name _ v). destruct f. exact Hv. }
  split.
  - unfold Project.bulk_delete. cbn [Project.add_all].
    unfold bind, Project.on_resource, Project._delete_request, bind,
      set_defaults, as_resource.
    cbn [attach]. rewrite D. reflexivity.
  - unfold Project.insert, bind, Project.on_resource, Project._insert_request,
      bind, set_defaults, as_resource.
    cbn [attach]. rewrite D. reflexivity.
Qed.

Lemma listed_firewall_cannot_be_deleted_witness :
  Project.bulk_delete (demo_project [])
    [AFirewall (fst (Firewall.from_json (listed_firewall "demo-fw") Firewall.new))]
    []
  = ([], Raise (AttributeError "name")) /\
  Project.insert (demo_project [])
    (AFirewall (fst (Firewall.from_json (listed_firewall "demo-fw") Firewall.new)))
    []
  = ([], Raise (AttributeError "name")).
Proof.
  apply (listed_firewall_cannot_be_deleted (demo_project [])
           (listed_firewall "demo-fw") Firewall.new).
  vm_compute. reflexivity.
Defined.

(** ** Deleting an instance *)

Section DeleteInstance.
#[local] Opaque compute_setting resource_url py_getitem truthy.

(** X11: [_delete_request] applies every default before it builds the
    request: for an instance whose zone, image, machine type and network
    interfaces are set it consults no setting and asks for the deletion of
    the name in the zone, but for an instance without an image name it
    raises what the lookup of the default image raises, though the request
    has no use for an image. *)
Theorem delete_of_instance_applies_defaults (self : GceProject)
    (i : Instance.t) :
  truthy (Zone.name (Instance.zone i)) = true ->
  (truthy (Image.name (Instance.image i)) = true ->
   truthy (MachineType.name (Instance.machine_type i)) = true ->
   truthy (Instance.network_interfaces i) = true ->
   snd (Project._delete_request self (attach self (AnInstance i)))
   = Ok (mkRequest instances delete_call
           [("project", project_id self);
            ("instance", Instance.name i);
            ("zone", Zone.name (Instance.zone i))] None)) /\
  (forall e,
      truthy (Image.name (Instance.image i)) = false ->
      compute_setting self "image" = Raise e ->
      snd (Project._delete_request self (attach self (AnInstance i)))
      = Raise e).
Proof.
  intros Hz.
  destruct i as [n [zn zgp] d tg [inm ipr ide ist ipk ird igp] [mn mgp]
                   ni dk md sa k s sm gp].
  cbn in Hz.
  unfold Project._delete_request, set_defaults, as_resource,
    Instance.set_defaults, Instance.on_zone, Instance.on_image,
    Instance.on_machine_type, Zone.set_defaults, Image.set_defaults,
    MachineType.set_defaults, attached.
  split.
  - cbn. intros Hi Hm Hn. run_se. cbn.
    repeat (first [rewrite Hz | rewrite Hi | rewrite Hm | rewrite Hn]; cbn).
    reflexivity.
  - cbn. intros e Hi He. run_se. cbn.
    repeat (first [rewrite Hz | rewrite Hi | rewrite He]; cbn).
    reflexivity.
Qed.
End DeleteInstance.

Lemma delete_of_instance_applies_defaults_witness :
  snd (Project._delete_request (demo_project [])
         (attach (demo_project []) (from_listing "demo-1" "RUNNING")))
  = Ok (mkRequest instances delete_call
          [("project", PStr "my-project");
           ("instance", PStr "demo-1");
           ("zone", PStr "us-central1-a")] None).
Proof.
  refine (proj1 (delete_of_instance_applies_defaults (demo_project [])
                   (fst (Instance.from_json (listed_instance "demo-1" "RUNNING")
                           Instance.new)) _) _ _ _);
    vm_compute; reflexivity.
Defined.

(** ** The helper when nothing is listed or the provider fails *)

(** The keyword arguments the helper lists with. *)
Lemma helper_filter (demo_name : pyval) (n suffix : string) :
  py_str demo_name = Ok n ->
  (n <- py_str demo_name ;; Ok ("name eq ^" ++ n ++ suffix))%res
  = Ok ("name eq ^" ++ n ++ suffix).
Proof. intros E. rewrite E. reflexivity. Qed.

(** X12: when the listing returns no resource, [delete_demo_resources]
    makes no further provider call and leaves both responses as they were;
    when the listing fails it sets status 500 with the listing prefix (401
    for the token error), deletes nothing and returns. *)
Theorem delete_demo_resources_without_matches (gce_project : GceProject)
    (demo_name : pyval) (n : string) (lister : gce_method) (w : world)
    (t : list event) :
  py_str demo_name = Ok n ->
  let args := [("filter", Value (PStr ("name eq ^" ++ n ++ "-.*")));
               ("maxResults", Value (PInt MAX_RESULTS))] in
  (lister args (trace w) = (t, Ok (RResources [])) ->
   GceAppEngine.delete_demo_resources gce_project demo_name lister w
   = (mkWorld t (handler_response w) (self_response w), Ok tt)) /\
  (lister args (trace w) = (t, Ok RNone) ->
   GceAppEngine.delete_demo_resources gce_project demo_name lister w
   = (mkWorld t (handler_response w) (self_response w), Ok tt)) /\
  (forall message,
      lister args (trace w) = (t, Raise (GceError message)) ->
      GceAppEngine.delete_demo_resources gce_project demo_name lister w
      = (mkWorld (t ++ [LoggedMessage ("Error listing resources: " ++ message)])%list
                 (set_status 500 ("Error listing resources: " ++ message)
                             (handler_response w))
                 (self_response w),
         Ok tt)) /\
  (forall message,
      lister args (trace w) = (t, Raise (GceTokenError message)) ->
      GceAppEngine.delete_demo_resources gce_project demo_name lister w
      = (mkWorld t (set_status 401 "Unauthorized." (handler_response w))
                 (self_response w),
         Ok tt)).
Proof.
  intros Hn args. subst args.
  unfold GceAppEngine.delete_demo_resources.
  rewrite bind_lift, (helper_filter _ _ _ Hn).
  unfold bind, GceAppEngine.run_gce_request, try_except, call.
  repeat match goal with |- _ /\ _ => split end.
  - intros E. rewrite E. reflexivity.
  - intros E. rewrite E. reflexivity.
  - intros message E. rewrite E. reflexivity.
  - intros message E. rewrite E. reflexivity.
Qed.

Lemma delete_demo_resources_without_matches_witness :
  GceAppEngine.delete_demo_resources (demo_project []) (PStr "demo")
    (list_instances_method 3 (demo_project []))
    (mkWorld [] no_response (Some no_response))
  = (mkWorld
       [Executed (Single (mkRequest instances list_call
                            [("project", PStr "my-project");
                             ("filter", PStr "name eq ^demo-.*");
                             ("maxResults", PInt 100);
                             ("zone", PStr "us-central1-a")] None))]
       no_response (Some no_response),
     Ok tt).
Proof.
  apply (proj1 (delete_demo_resources_without_matches (demo_project [])
                  (PStr "demo") "demo" (list_instances_method 3 (demo_project []))
                  (mkWorld [] no_response (Some no_response)) _ eq_refl)).
  vm_compute. reflexivity.
Defined.

(** X13: when the bulk delete of the listed resources fails,
    [delete_demo_resources] sets status 500 with the prefix 'Error deleting
    resources: ' and the message (401 'Unauthorized.' for the token
    error), writes no body and returns. *)
Theorem delete_demo_resources_delete_failure (gce_project : GceProject)
    (demo_name : pyval) (n : string) (lister : gce_method) (w : world)
    (t t' : list event) (r : GceResource) (l : list GceResource) :
  py_str demo_name = Ok n ->
  lister [("filter", Value (PStr ("name eq ^" ++ n ++ "-.*")));
          ("maxResults", Value (PInt MAX_RESULTS))] (trace w)
  = (t, Ok (RResources (r :: l))) ->
  (forall message,
      Project.bulk_delete gce_project (r :: l) t = (t', Raise (GceError message)) ->
      GceAppEngine.delete_demo_resources gce_project demo_name lister w
      = (mkWorld (t' ++ [LoggedMessage ("Error deleting resources: " ++ message)])%list
                 (set_status 500 ("Error deleting resources: " ++ message)
                             (handler_response w))
                 (self_response w),
         Ok tt)) /\
  (forall message,
      Project.bulk_delete gce_project (r :: l) t
      = (t', Raise (GceTokenError message)) ->
      GceAppEngine.delete_demo_resources gce_project demo_name lister w
      = (mkWorld t' (set_status 401 "Unauthorized." (handler_response w))
                 (self_response w),
         Ok tt)).
Proof.
  intros Hn El.
  unfold GceAppEngine.delete_demo_resources.
  rewrite bind_lift, (helper_filter _ _ _ Hn).
  unfold bind, GceAppEngine.run_gce_request, try_except, call.
  rewrite El. cbn [response_truthy when trace handler_response self_response
                   bulk_delete_method String.eqb Ascii.eqb Bool.eqb].
  split; intros message E; rewrite E; reflexivity.
Qed.

Lemma delete_demo_resources_delete_failure_witness :
  GceAppEngine.delete_demo_resources
    (project_with (breaking_service [listed_instance "demo-1" "RUNNING"]
                                    (HttpError 503 "Service Unavailable")))
    (PStr "demo")
    (list_instances_method 1
       (project_with (demo_service [listed_instance "demo-1" "RUNNING"])))
    (mkWorld [] no_response None)
  = (mkWorld
       [Executed (Single (mkRequest instances list_call
                            [("project", PStr "my-project");
                             ("filter", PStr "name eq ^demo-.*");
                             ("maxResults", PInt 100);
                             ("zone", PStr "us-central1-a")] None));
        Executed (Batch [mkRequest instances delete_call
                           [("project", PStr "my-project");
                            ("instance", PStr "demo-1");
                            ("zone", PStr "us-central1-a")] None]);
        LoggedError (HttpError 503 "Service Unavailable");
        LoggedMessage
          "Error deleting resources: HttpError: 503 Service Unavailable"]
       (mkResponse
          (500%Z, "Error deleting resources: HttpError: 503 Service Unavailable")
          [] "")
       None,
     Ok tt).
Proof.
  refine (proj1 (delete_demo_resources_delete_failure
                   (project_with
                      (breaking_service [listed_instance "demo-1" "RUNNING"]
                         (HttpError 503 "Service Unavailable")))
                   (PStr "demo") "demo"
                   (list_instances_method 1
                      (project_with
                         (demo_service [listed_instance "demo-1" "RUNNING"])))
                   (mkWorld [] no_response None)
                   [Executed (Single (mkRequest instances list_call
                            [("project", PStr "my-project");
                             ("filter", PStr "name eq ^demo-.*");
                             ("maxResults", PInt 100);
                             ("zone", PStr "us-central1-a")] None))]
                   [Executed (Single (mkRequest instances list_call
                            [("project", PStr "my-project");
                             ("filter", PStr "name eq ^demo-.*");
                             ("maxResults", PInt 100);
                             ("zone", PStr "us-central1-a")] None));
                    Executed (Batch [mkRequest instances delete_call
                           [("project", PStr "my-project");
                            ("instance", PStr "demo-1");
                            ("zone", PStr "us-central1-a")] None]);
                    LoggedError (HttpError 503 "Service Unavailable")]
                   (from_listing "demo-1" "RUNNING") []
                   eq_refl _) "HttpError: 503 Service Unavailable" _);
    vm_compute; reflexivity.
Defined.

(** ** list_demo_resources when the listing fails or lacks a status *)

(** X14: when the listing fails, [list_demo_resources] sets status 500
    with the listing prefix (401 for the token error) and then raises
    TypeError, iterating over the [None] that [run_gce_request] returned;
    no header and no body are written. *)
Theorem list_demo_resources_listing_failure (demo_name : pyval) (n : string)
    (lister : gce_method) (w : world) (t : list event) :
  py_str demo_name = Ok n ->
  let args := [("filter", Value (PStr ("name eq ^" ++ n ++ ".*")));
               ("maxResults", Value (PInt MAX_RESULTS))] in
  (forall message,
      lister args (trace w) = (t, Raise (GceError message)) ->
      GceAppEngine.list_demo_resources demo_name lister w
      = (mkWorld (t ++ [LoggedMessage ("Error listing resources: " ++ message)])%list
                 (set_status 500 ("Error listing resources: " ++ message)
                             (handler_response w))
                 (self_response w),
         Raise (TypeError "iteration"))) /\
  (forall message,
      lister args (trace w) = (t, Raise (GceTokenError message)) ->
      GceAppEngine.list_demo_resources demo_name lister w
      = (mkWorld t (set_status 401 "Unauthorized." (handler_response w))
                 (self_response w),
         Raise (TypeError "iteration"))).
Proof.
  intros Hn args. subst args.
  unfold GceAppEngine.list_demo_resources.
  rewrite bind_lift, (helper_filter _ _ _ Hn).
  unfold bind, GceAppEngine.run_gce_request, try_except, call.
  split; intros message E; rewrite E; reflexivity.
Qed.

Lemma list_demo_resources_listing_failure_witness :
  GceAppEngine.list_demo_resources (PStr "demo")
    (list_instances_method 3 (failing_project AccessTokenRefreshError))
    (mkWorld [] no_response None)
  = (mkWorld
       [Executed (Single (mkRequest instances list_call
                            [("project", PStr "my-project");
                             ("filter", PStr "name eq ^demo.*");
                             ("maxResults", PInt 100);
                             ("zone", PStr "us-central1-a")] None));
        LoggedError AccessTokenRefreshError]
       (mkResponse (401%Z, "Unauthorized.") [] "") None,
     Raise (TypeError "iteration")).
Proof.
  refine (proj2 (list_demo_resources_listing_failure (PStr "demo") "demo"
                   (list_instances_method 3
                      (failing_project AccessTokenRefreshError))
                   (mkWorld [] no_response None) _ eq_refl)
                "Access Token refresh error" _).
  vm_compute. reflexivity.
Defined.

Lemma status_dict_missing (l : list GceResource) :
  Forall (fun r => exists s, name_of r = PStr s) l ->
  Exists (fun r => status_of r = Raise (AttributeError "status")) l ->
  forall d, GceAppEngine.status_dict l d = Raise (AttributeError "status").
Proof.
  induction 1 as [|r l [s Hs] Hl IH]; intros Hex d; [inversion Hex|].
  cbn [GceAppEngine.status_dict]. unfold GceAppEngine.add_status, rbind.
  destruct (status_of r) as [st|e] eqn:Est.
  - rewrite Hs. apply IH. inversion Hex as [? ? Hr|]; subst; [|assumption].
    rewrite Est in Hr. discriminate.
  - destruct r as [i| | | | |]; cbn in Est; try (inversion Est; reflexivity).
    destruct (Instance.status i); inversion Est. reflexivity.
Qed.

(** X15: when a listed resource has no status (an instance the provider
    sent without one, or any firewall or image), [list_demo_resources]
    raises AttributeError after the listing and writes neither the
    Content-Type nor a body. *)
Theorem list_demo_resources_needs_status (demo_name : pyval) (n : string)
    (lister : gce_method) (w : world) (t : list event) (l : list GceResource) :
  py_str demo_name = Ok n ->
  lister [("filter", Value (PStr ("name eq ^" ++ n ++ ".*")));
          ("maxResults", Value (PInt MAX_RESULTS))] (trace w)
  = (t, Ok (RResources l)) ->
  Forall (fun r => exists s, name_of r = PStr s) l ->
  Exists (fun r => status_of r = Raise (AttributeError "status")) l ->
  GceAppEngine.list_demo_resources demo_name lister w
  = (mkWorld t (handler_response w) (self_response w),
     Raise (AttributeError "status")).
Proof.
  intros Hn El Hnames Hmiss.
  unfold GceAppEngine.list_demo_resources.
  rewrite bind_lift, (helper_filter _ _ _ Hn).
  unfold bind, GceAppEngine.run_gce_request, try_except, call.
  rewrite El. cbn [lift response_iter].
  rewrite (status_dict_missing l Hnames Hmiss). reflexivity.
Qed.

Lemma list_demo_resources_needs_status_witness :
  GceAppEngine.list_demo_resources (PStr "demo")
    (list_firewalls_method 3 (demo_project [listed_firewall "demo-fw"]))
    (mkWorld [] no_response None)
  = (mkWorld
       [Executed (Single (mkRequest firewalls list_call
                            [("project", PStr "my-project");
                             ("filter", PStr "name eq ^demo.*");
                             ("maxResults", PInt 100)] None))]
       no_response None,
     Raise (AttributeError "status")).
Proof.
  refine (list_demo_resources_needs_status (PStr "demo") "demo"
            (list_firewalls_method 3 (demo_project [listed_firewall "demo-fw"]))
            (mkWorld [] no_response None) _
            [firewall_from_listing "demo-fw"] eq_refl _ _ _).
  - vm_compute. reflexivity.
  - constructor; [exists "demo-fw"; reflexivity|constructor].
  - constructor. reflexivity.
Defined.

(** X16: two listed resources of one name (instances of one name in two
    zones) give one entry in the body, with the status of the later one. *)
Theorem list_demo_resources_same_name (demo_name : pyval) (n : string)
    (lister : gce_method) (w : world) (t : list event) (ra rb : GceResource)
    (name sa sb : string) :
  py_str demo_name = Ok n ->
  lister [("filter", Value (PStr ("name eq ^" ++ n ++ ".*")));
          ("maxResults", Value (PInt MAX_RESULTS))] (trace w)
  = (t, Ok (RResources [ra; rb])) ->
  name_of ra = PStr name -> status_of ra = Ok (PStr sa) ->
  name_of rb = PStr name -> status_of rb = Ok (PStr sb) ->
  json_chars name = Ok name -> json_chars sb = Ok sb ->
  exists w',
    GceAppEngine.list_demo_resources demo_name lister w = (w', Ok tt) /\
    out (handler_response w')
    = out (handler_response w)
      ++ "{" ++ quoted "resources" ++ ": {" ++ quoted name ++ ": {"
      ++ quoted "status" ++ ": " ++ quoted sb ++ "}}}".
Proof.
  intros Hn El Na Sa Nb Sb Pn Pb.
  unfold GceAppEngine.list_demo_resources.
  rewrite bind_lift, (helper_filter _ _ _ Hn).
  unfold GceAppEngine.run_gce_request, try_except, call, bind, lift,
    on_response, modify.
  rewrite El. cbn [response_iter].
  unfold GceAppEngine.status_dict, GceAppEngine.add_status.
  rewrite Sa, Sb, Na, Nb. cbn [rbind dict_set]. rewrite String.eqb_refl.
  cbn [json_dumps rbind].
  rewrite (json_string_plain name Pn), (json_string_plain sb Pb).
  cbn [rbind trace handler_response].
  eexists. split; [reflexivity|].
  cbn [out write set_header handler_response]. f_equal.
  unfold quoted. cbn [append].
  repeat (rewrite !append_assoc'; cbn [append]).
  reflexivity.
Qed.

Lemma list_demo_resources_same_name_witness :
  exists w',
    GceAppEngine.list_demo_resources (PStr "demo")
      (list_instances_method 3
         (demo_project [listed_instance "demo-1" "RUNNING";
                        listed_instance "demo-1" "TERMINATED"]))
      (mkWorld [] no_response None) = (w', Ok tt) /\
    out (handler_response w')
    = "" ++ "{" ++ quoted "resources" ++ ": {" ++ quoted "demo-1" ++ ": {"
      ++ quoted "status" ++ ": " ++ quoted "TERMINATED" ++ "}}}".
Proof.
  refine (list_demo_resources_same_name (PStr "demo") "demo"
            (list_instances_method 3
               (demo_project [listed_instance "demo-1" "RUNNING";
                              listed_instance "demo-1" "TERMINATED"]))
            (mkWorld [] no_response None) _
            (from_listing "demo-1" "RUNNING") (from_listing "demo-1" "TERMINATED")
            "demo-1" "RUNNING" "TERMINATED" eq_refl _ _ _ _ _ _ _);
    vm_compute; reflexivity.
Defined.

Lemma bind_raise {S A B : Type} (m : SE S A) (k : A -> SE S B) (s s' : S)
    (e : exn) :
  m s = (s', Raise e) -> bind m k s = (s', Raise e).
Proof. intros E. unfold bind. rewrite E. reflexivity. Qed.

(** ** Listings that fail or do not end *)

Lemma calls_logged_failure (e : exn) : calls (logged_failure e) = 0.
Proof. destruct e; reflexivity. Qed.

Lemma list_request_of_attached (self : GceProject) (c : resource_class)
    (zone : pyval) (args : pydict) :
  exists base,
    Project._list_request self (attach self (construct c)) zone args = Ok base.
Proof. destruct c; cbn; eauto. Qed.

Lemma list_pages_fail (self : GceProject) (c : resource_class)
    (resource : GceResource) (zone : pyval) (args : pydict) (base : HttpRequest) :
  Project._list_request self resource zone args = Ok base ->
  forall request pages e,
    fails_after self base request pages e ->
    forall rs, collect c pages = Ok rs ->
    forall fuel acc t,
      length pages < fuel ->
      snd (Project.list_pages fuel self c resource zone args request acc t)
      = Raise (translated e) /\
      calls (fst (Project.list_pages fuel self c resource zone args request acc t))
      = calls t + S (length pages).
Proof.
  intros Hbase request pages e Hf.
  assert (Hcol : exists col, service_resource resource = Ok col).
  { unfold Project._list_request, rbind in Hbase.
    destruct (service_resource resource) as [col|x]; [eauto|discriminate]. }
  destruct Hcol as [col Hcol].
  induction Hf as [request e Hx
                  |request page cbs token pages e Hx Hnext Hf IH];
    intros rs Hc fuel acc t Hfuel;
    (destruct fuel as [|fuel]; [cbn in Hfuel; lia|]);
    cbn [Project.list_pages].
  - assert (R : try_except (Project._run_request self (Single request))
                           Project.reraise t
                = ((t ++ Executed (Single request) :: logged_failure e)%list,
                   Raise (translated e)))
      by (rewrite reraise_keeps; apply run_request_failed; exact Hx).
    rewrite !(bind_raise _ _ _ _ _ R).
    cbn [fst snd length]. split; [reflexivity|].
    rewrite calls_app.
    change (Executed (Single request) :: logged_failure e)
      with ([Executed (Single request)] ++ logged_failure e)%list.
    rewrite calls_app, calls_logged_failure. unfold calls; cbn. lia.
  - cbn [collect] in Hc. unfold rbind in Hc.
    destruct (page_items page) as [items|x] eqn:Ei; [|discriminate].
    destruct (rmap (Project.converted c) items) as [here|x] eqn:Eh;
      [|discriminate].
    destruct (collect c pages) as [more|x] eqn:Em; [|discriminate].
    erewrite bind_ok
      by (rewrite reraise_keeps; eapply run_request_single; eassumption).
    rewrite bind_lift. fold (page_items page). rewrite Ei.
    rewrite bind_lift, Eh, bind_lift, Hcol. cbn [rbind]. rewrite Hbase.
    rewrite bind_lift. cbn [Project.list_next]. rewrite Hnext.
    destruct (IH more eq_refl fuel (acc ++ here)%list
                 (t ++ [Executed (Single request)])%list) as [A B];
      [cbn in Hfuel; lia|].
    split; [exact A|]. rewrite B, calls_app. unfold calls at 2; cbn. lia.
Qed.

(** X17: when the provider fails on a page after serving earlier ones,
    [_list] raises the translated error and returns none of the items it
    had already received; it has made one call per page served and one
    that failed. *)
Theorem list_fails_without_partial_result (fuel : nat) (self : GceProject)
    (c : resource_class) (zone : pyval) (args : pydict) (base : HttpRequest)
    (pages : list pydict) (rs : list GceResource) (e : exn) (t : list event) :
  Project._list_request self (attach self (construct c)) zone args = Ok base ->
  fails_after self base base pages e ->
  collect c pages = Ok rs ->
  length pages < fuel ->
  snd (Project._list fuel self c zone args t) = Raise (translated e) /\
  calls (fst (Project._list fuel self c zone args t))
  = calls t + S (length pages).
Proof.
  intros Hbase Hf Hc Hfuel.
  destruct (list_pages_fail self c _ zone args base Hbase base pages e Hf rs Hc
              fuel [] t Hfuel) as [A B].
  unfold Project._list. rewrite bind_lift, Hbase. unfold bind, ret.
  destruct (Project.list_pages fuel self c (attach self (construct c)) zone args
              base [] t) as [t' [l|x]]; cbn [fst snd] in *.
  - discriminate.
  - inversion A. split; [reflexivity|exact B].
Qed.

Lemma list_fails_without_partial_result_witness :
  snd (Project._list 2
         (project_with (breaking_service [listed_instance "demo-1" "RUNNING"]
                                         (HttpError 500 "Internal Error")))
         InstanceClass PNone [] [])
  = Raise (GceError "HttpError: 500 Internal Error") /\
  calls (fst (Project._list 2
         (project_with (breaking_service [listed_instance "demo-1" "RUNNING"]
                                         (HttpError 500 "Internal Error")))
         InstanceClass PNone [] []))
  = 0 + 2.
Proof.
  refine (list_fails_without_partial_result 2
            (project_with (breaking_service [listed_instance "demo-1" "RUNNING"]
                             (HttpError 500 "Internal Error")))
            InstanceClass PNone []
            (mkRequest instances list_call
               [("project", PStr "my-project"); ("zone", PStr "us-central1-a")]
               None)
            [[("items", PList [listed_instance "demo-1" "RUNNING"]);
              ("nextPageToken", PStr "page-2")]]
            [from_listing "demo-1" "RUNNING"]
            (HttpError 500 "Internal Error") [] eq_refl _ _ _).
  - eapply fails_later; [reflexivity|reflexivity|].
    apply fails_now. reflexivity.
  - vm_compute. reflexivity.
  - cbn. lia.
Defined.

Lemma list_pages_endless (self : GceProject) (c : resource_class)
    (resource : GceResource) (zone : pyval) (args : pydict) (base : HttpRequest) :
  Project._list_request self resource zone args = Ok base ->
  (forall request, exists page cbs token rs,
      service self (Single request) = Returned (PDict page) cbs /\
      dict_get page "nextPageToken" = Some token /\
      (items <- page_items page ;; rmap (Project.converted c) items)%res = Ok rs) ->
  forall fuel request acc t,
    snd (Project.list_pages fuel self c resource zone args request acc t)
    = Raise OutOfFuel /\
    calls (fst (Project.list_pages fuel self c resource zone args request acc t))
    = calls t + fuel.
Proof.
  intros Hbase Hall.
  assert (Hcol : exists col, service_resource resource = Ok col).
  { unfold Project._list_request, rbind in Hbase.
    destruct (service_resource resource) as [col|x]; [eauto|discriminate]. }
  destruct Hcol as [col Hcol].
  induction fuel as [|fuel IH]; intros request acc t; cbn [Project.list_pages].
  - cbn. split; [reflexivity|lia].
  - destruct (Hall request) as (page & cbs & token & rs & Hx & Hnext & Hrs).
    unfold rbind in Hrs.
    destruct (page_items page) as [items|x] eqn:Ei; [|discriminate].
    erewrite bind_ok
      by (rewrite reraise_keeps; eapply run_request_single; eassumption).
    rewrite bind_lift. fold (page_items page). rewrite Ei.
    rewrite bind_lift, Hrs, bind_lift, Hcol. cbn [rbind]. rewrite Hbase.
    rewrite bind_lift. cbn [Project.list_next]. rewrite Hnext.
    destruct (IH (Project.with_token base token) (acc ++ rs)%list
                 (t ++ [Executed (Single request)])%list) as [A B].
    split; [exact A|]. rewrite B, calls_app. unfold calls at 2; cbn. lia.
Qed.

(** X18: [_list] has no bound of its own on the number of pages: against a
    provider every page of which names a next page, the loop is still
    running after any number of iterations, one provider call each. *)
Theorem list_does_not_end_on_endless_pages (self : GceProject)
    (c : resource_class) (zone : pyval) (args : pydict) :
  (forall request, exists page cbs token rs,
      service self (Single request) = Returned (PDict page) cbs /\
      dict_get page "nextPageToken" = Some token /\
      (items <- page_items page ;; rmap (Project.converted c) items)%res = Ok rs) ->
  forall fuel t,
    snd (Project._list fuel self c zone args t) = Raise OutOfFuel /\
    calls (fst (Project._list fuel self c zone args t)) = calls t + fuel.
Proof.
  intros Hall fuel t.
  destruct (list_request_of_attached self c zone args) as [base Hbase].
  destruct (list_pages_endless self c _ zone args base Hbase Hall fuel base [] t)
    as [A B].
  unfold Project._list. rewrite bind_lift, Hbase. unfold bind, ret.
  destruct (Project.list_pages fuel self c (attach self (construct c)) zone args
              base [] t) as [t' [l|x]]; cbn [fst snd] in *.
  - discriminate.
  - inversion A. split; [reflexivity|exact B].
Qed.

Lemma list_does_not_end_on_endless_pages_witness :
  snd (Project._list 50 (project_with endless_service) FirewallClass PNone [] [])
  = Raise OutOfFuel /\
  calls (fst (Project._list 50 (project_with endless_service) FirewallClass
                PNone [] []))
  = 0 + 50.
Proof.
  apply (list_does_not_end_on_endless_pages (project_with endless_service)
           FirewallClass PNone []).
  intros request. exists [("nextPageToken", PStr "more")], [], (PStr "more"), [].
  repeat split.
Defined.

(** ** The zone of a list request *)

Lemma dict_get_set (d : pydict) (k k' : string) (v : pyval) :
  dict_get (dict_set d k v) k'
  = if String.eqb k' k then Some v else dict_get d k'.
Proof.
  induction d as [|[k0 v0] d IH]; cbn [dict_set dict_get].
  - destruct (String.eqb k' k); reflexivity.
  - destruct (String.eqb k k0) eqn:E; cbn [dict_get].
    + apply String.eqb_eq in E. subst k0.
      destruct (String.eqb k' k); reflexivity.
    + rewrite IH. destruct (String.eqb k' k0) eqn:E0; [|reflexivity].
      apply String.eqb_eq in E0. subst k0.
      destruct (String.eqb k' k) eqn:E1; [|reflexivity].
      apply String.eqb_eq in E1. subst k'. rewrite String.eqb_refl in E.
      discriminate.
Qed.

Lemma dict_get_update_absent (d other : pydict) (k : string) :
  dict_get d k = None -> dict_get other k = None ->
  dict_get (dict_update d other) k = None.
Proof.
  unfold dict_update. revert d.
  induction other as [|[k0 v0] other IH]; intros d Hd Ho; [exact Hd|].
  cbn [fold_left fst snd]. cbn [dict_get] in Ho.
  destruct (String.eqb k k0) eqn:E; [discriminate|].
  apply IH; [|exact Ho]. rewrite dict_get_set, E. exact Hd.
Qed.

(** X19: a list request for instances always carries a zone, the one asked
    for or, when that is empty, the zone of the client, whatever the other
    arguments say; a list request for a class of global scope carries a
    zone only if the other arguments supply one. *)
Theorem list_request_zone (self : GceProject) (zone : pyval) (args : pydict) :
  (forall i request,
      Project._list_request self (AnInstance i) zone args = Ok request ->
      dict_get (req_params request) "zone"
      = Some (if truthy zone then zone else zone_name self)) /\
  (forall r request,
      scope_of r = global ->
      Project._list_request self r zone args = Ok request ->
      dict_get args "zone" = None ->
      dict_get (req_params request) "zone" = None).
Proof.
  split.
  - intros i request. unfold Project._list_request, rbind.
    destruct (service_resource (AnInstance i)) as [col|e]; [|discriminate].
    intros E. inversion E; subst; clear E. cbn [req_params scope_of Instance.__scope__].
    rewrite dict_get_set, String.eqb_refl.
    destruct (truthy zone); reflexivity.
  - intros r request Hg. unfold Project._list_request, rbind.
    destruct (service_resource r) as [col|e]; [|discriminate].
    intros E Ha. inversion E; subst; clear E. cbn [req_params]. rewrite Hg.
    destruct args as [|a args]; [reflexivity|].
    apply dict_get_update_absent; [reflexivity|exact Ha].
Qed.

Lemma list_request_zone_witness :
  dict_get
    [("project", PStr "my-project"); ("zone", PStr "us-central1-a")] "zone"
  = Some (if truthy (PStr "") then PStr "" else PStr "us-central1-a").
Proof.
  exact (proj1 (list_request_zone (demo_project []) (PStr "")
                  [("zone", PStr "asia-east1-a")])
               bare_instance
               (mkRequest instances list_call
                  [("project", PStr "my-project"); ("zone", PStr "us-central1-a")]
                  None)
               eq_refl).
Defined.

(** ** from_json *)

Lemma optional_field_updates {S : Type} (d : pydict) (key : string)
    (set : pyval -> S -> S) (s : S) :
  optional_field (PDict d) key set s
  = (match dict_get d key with
     | Some v => if truthy v then set v s else s
     | None => s
     end, Ok tt).
Proof.
  unfold optional_field, bind, lift, when, modify, ret, py_get, py_getitem.
  destruct (dict_get d key) as [v|]; [|reflexivity].
  destruct (truthy v); reflexivity.
Qed.

(** X20: [Image.from_json] succeeds exactly when the dictionary has a
    name; it stores the name, stores each of description, sourceType,
    preferredKernel and rawDisk that is present and not empty, and leaves
    the other attributes, the owning project among them, as they were on
    the object. *)
Theorem image_from_json_updates (d : pydict) (img : Image.t) :
  (dict_get d "name" = None ->
   Image.from_json (PDict d) img = (img, Raise (KeyError "name"))) /\
  (forall n,
      dict_get d "name" = Some n ->
      Image.from_json (PDict d) img
      = (Image.mk n (Image.project img)
           (updated d "description" (Image.description img))
           (updated d "sourceType" (Image.source_type img))
           (updated d "preferredKernel" (Image.preferred_kernel img))
           (updated d "rawDisk" (Image.raw_disk img))
           (Image.gce_project img),
         Ok tt)).
Proof.
  split.
  - intros E. unfold Image.from_json. rewrite bind_lift. cbn [py_getitem].
    rewrite E. reflexivity.
  - intros n E. unfold Image.from_json. rewrite bind_lift. cbn [py_getitem].
    rewrite E.
    erewrite bind_ok by reflexivity.
    do 3 (erewrite bind_ok by apply optional_field_updates).
    rewrite optional_field_updates.
    destruct img as [n0 pr de st pk rd gp]. unfold updated. cbn.
    destruct (dict_get d "description") as [v1|]; [destruct (truthy v1)|];
      (destruct (dict_get d "sourceType") as [v2|]; [destruct (truthy v2)|]);
      (destruct (dict_get d "preferredKernel") as [v3|]; [destruct (truthy v3)|]);
      (destruct (dict_get d "rawDisk") as [v4|]; [destruct (truthy v4)|]);
      reflexivity.
Qed.

Lemma image_from_json_updates_witness :
  Image.from_json (PDict [("name", PStr "debian-7"); ("description", PStr "")])
    (Image.init (PStr "old") (PStr "my-project") (PStr "kept") PNone PNone PNone)
  = (Image.mk (PStr "debian-7") (PStr "my-project")
       (updated [("name", PStr "debian-7"); ("description", PStr "")]
                "description" (PStr "kept"))
       (updated [("name", PStr "debian-7"); ("description", PStr "")]
                "sourceType" PNone)
       (updated [("name", PStr "debian-7"); ("description", PStr "")]
                "preferredKernel" PNone)
       (updated [("name", PStr "debian-7"); ("description", PStr "")]
                "rawDisk" PNone)
       None,
     Ok tt).
Proof.
  exact (proj2 (image_from_json_updates
                  [("name", PStr "debian-7"); ("description", PStr "")]
                  (Image.init (PStr "old") (PStr "my-project") (PStr "kept")
                     PNone PNone PNone))
               (PStr "debian-7") eq_refl).
Defined.

(** X21: the mapping that [Image.json] builds reads back: [from_json] on
    it gives a new image the name and every description, source type,
    preferred kernel and raw disk that was set; the owning project is not
    in the mapping and comes back as the default. *)
Theorem image_mapping_reads_back (img : Image.t) :
  exists img',
    Image.from_json (PDict (Image.json_image img)) Image.new = (img', Ok tt) /\
    Image.name img' = Image.name img /\
    reread (Image.description img) (Image.description img') /\
    reread (Image.source_type img) (Image.source_type img') /\
    reread (Image.preferred_kernel img) (Image.preferred_kernel img') /\
    reread (Image.raw_disk img) (Image.raw_disk img') /\
    Image.project img' = PStr GOOGLE_PROJECT.
Proof.
  unfold Image.json_image, reread.
  destruct (truthy (Image.description img)) eqn:T1,
    (truthy (Image.source_type img)) eqn:T2,
    (truthy (Image.preferred_kernel img)) eqn:T3,
    (truthy (Image.raw_disk img)) eqn:T4.
  all: unfold Image.from_json, optional_field, bind, lift, modify, when, rbind.
  all: cbn [dict_set py_getitem py_get dict_get String.eqb Ascii.eqb Bool.eqb].
  all: cbn [truthy]; rewrite ?T1, ?T2, ?T3, ?T4.
  all: cbn.
  all: eexists; split; [reflexivity|]; cbn;
       repeat split; try reflexivity; intros; try discriminate.
Qed.

(** X22: [from_json] on something that is not a dictionary raises
    TypeError, and on a dictionary without a name KeyError, for an
    instance, a firewall and an image alike, and leaves the object as it
    was; the other three classes have no [from_json]. *)
Theorem from_json_rejects (r : GceResource) (j : pyval) :
  (class_of r = InstanceClass \/ class_of r = FirewallClass \/
   class_of r = ImageClass ->
   ((forall d, j <> PDict d) ->
    from_json j r = (r, Raise (TypeError "subscript"))) /\
   (forall d, j = PDict d -> dict_get d "name" = None ->
              from_json j r = (r, Raise (KeyError "name")))) /\
  (class_of r = MachineTypeClass \/ class_of r = ZoneClass \/
   class_of r = NetworkClass ->
   from_json j r = (r, Raise (AttributeError "from_json"))).
Proof.
  split.
  - intros C. split.
    + intros Hj.
      assert (G : py_getitem j "name" = Raise (TypeError "subscript")).
      { destruct j; try reflexivity. exfalso. eapply Hj. reflexivity. }
      destruct r as [i|f|i|m|z|n];
        try (destruct C as [C|[C|C]]; discriminate C);
        unfold from_json, as_resource, Instance.from_json, Firewall.from_json,
          Image.from_json; rewrite bind_lift, G; reflexivity.
    + intros d -> Hd.
      destruct r as [i|f|i|m|z|n];
        try (destruct C as [C|[C|C]]; discriminate C);
        unfold from_json, as_resource, Instance.from_json, Firewall.from_json,
          Image.from_json; rewrite bind_lift; cbn [py_getitem]; rewrite Hd;
        reflexivity.
  - intros C.
    destruct r as [i|f|i|m|z|n];
      try (destruct C as [C|[C|C]]; discriminate C); reflexivity.
Qed.

Lemma from_json_rejects_witness :
  from_json PNone (construct ImageClass)
  = (construct ImageClass, Raise (TypeError "subscript")).
Proof.
  apply (proj1 (proj1 (from_json_rejects (construct ImageClass) PNone)
                  (or_intror (or_intror eq_refl)))).
  intros d H. discriminate H.
Defined.

(** X23: [Instance.from_json] needs the name, zone, image, machine type
    and network interfaces and nothing else: on a dictionary with these
    five (the three references being strings) and none of the optional
    keys it fills a new instance with the name, the last path segments and
    the interfaces, and creates no status, kernel or status message; a
    dictionary that lacks only the network interfaces raises KeyError. *)
Theorem instance_from_json_required (d : pydict) (n ni : pyval)
    (z i m : string) :
  dict_get d "name" = Some n ->
  dict_get d "zone" = Some (PStr z) ->
  dict_get d "image" = Some (PStr i) ->
  dict_get d "machineType" = Some (PStr m) ->
  (dict_get d "networkInterfaces" = None ->
   snd (Instance.from_json (PDict d) Instance.new)
   = Raise (KeyError "networkInterfaces")) /\
  (dict_get d "networkInterfaces" = Some ni ->
   dict_get d "description" = None -> dict_get d "tags" = None ->
   dict_get d "kernel" = None -> dict_get d "status" = None ->
   dict_get d "statusMessage" = None -> dict_get d "disks" = None ->
   dict_get d "metadata" = None -> dict_get d "serviceAccounts" = None ->
   exists zl il ml,
     last_segment (PStr z) = Ok zl /\
     last_segment (PStr i) = Ok il /\
     last_segment (PStr m) = Ok ml /\
     Instance.from_json (PDict d) Instance.new
     = (Instance.mk n (Zone.init zl) PNone PNone (Image.named il)
          (MachineType.init ml) ni PNone PNone PNone None None None None,
        Ok tt)).
Proof.
  intros Hn Hz Hi Hm.
  destruct (last_segment_total z) as [zl Hzl].
  destruct (last_segment_total i) as [il Hil].
  destruct (last_segment_total m) as [ml Hml].
  split.
  - intros Hni.
    unfold Instance.from_json, bind, lift, modify, rbind. cbn [py_getitem].
    rewrite Hn, Hz, Hi, Hm, Hni, Hzl, Hil, Hml. reflexivity.
  - intros Hni H1 H2 H3 H4 H5 H6 H7 H8.
    exists (PStr zl), (PStr il), (PStr ml). repeat split; try assumption.
    assert (O : forall (S : Type) key (set : pyval -> S -> S) s,
               dict_get d key = None ->
               optional_items (PDict d) key set s = (s, Ok tt)).
    { intros S key set s H.
      unfold optional_items, bind, lift, when, py_get. rewrite H. reflexivity. }
    unfold Instance.from_json.
    rewrite bind_lift. cbn [py_getitem]. rewrite Hn.
    erewrite bind_ok by reflexivity.
    rewrite bind_lift. cbn [py_getitem rbind]. rewrite Hz. cbn [rbind].
    rewrite Hzl. erewrite bind_ok by reflexivity.
    rewrite bind_lift. cbn [py_getitem rbind]. rewrite Hi. cbn [rbind].
    rewrite Hil. erewrite bind_ok by reflexivity.
    rewrite bind_lift. cbn [py_getitem rbind]. rewrite Hm. cbn [rbind].
    rewrite Hml. erewrite bind_ok by reflexivity.
    rewrite bind_lift. cbn [py_getitem]. rewrite Hni.
    erewrite bind_ok by reflexivity.
    erewrite bind_ok by apply optional_field_updates. rewrite H1.
    erewrite bind_ok by (apply O; exact H2).
    erewrite bind_ok by apply optional_field_updates. rewrite H3.
    erewrite bind_ok by apply optional_field_updates. rewrite H4.
    erewrite bind_ok by apply optional_field_updates. rewrite H5.
    erewrite bind_ok by apply optional_field_updates. rewrite H6.
    erewrite bind_ok by (apply O; exact H7).
    rewrite optional_field_updates, H8. reflexivity.
Qed.

Lemma instance_from_json_required_witness :
  snd (Instance.from_json
         (PDict [("name", PStr "demo-1");
                 ("zone", PStr "zones/us-central1-a");
                 ("image", PStr "images/debian-7");
                 ("machineType", PStr "machineTypes/n1-standard-1")])
         Instance.new)
  = Raise (KeyError "networkInterfaces").
Proof.
  exact (proj1 (instance_from_json_required
                  [("name", PStr "demo-1");
                   ("zone", PStr "zones/us-central1-a");
                   ("image", PStr "images/debian-7");
                   ("machineType", PStr "machineTypes/n1-standard-1")]
                  (PStr "demo-1") PNone "zones/us-central1-a" "images/debian-7"
                  "machineTypes/n1-standard-1" eq_refl eq_refl eq_refl eq_refl)
               eq_refl).
Defined.
